(** * KPI aggregation of the security dashboard (DashboardVisualization.tsx)

    A shallow embedding of the two aggregators [calculateEdrKpis] and
    [calculateVulnKpis], of their counting helpers and of the load routine
    [loadData], followed by the properties of the specification.

    Modelling choices, all local to this file:
    - a JavaScript [number] is an exact rational or one of NaN, Infinity,
      -Infinity; finite results are not rounded to binary64 and -0 is
      identified with 0;
    - an object used as a counter table ([CountObject]) is the list of
      its own properties in creation order, read through the members it
      inherits from [Object.prototype] and listed by [Object.keys] with
      the array indices first;
    - [[...new Set(xs)]] is the list of first occurrences of [xs];
    - React state is an explicit record threaded through a state monad. *)

From Stdlib Require Import Ascii QArith Qabs Qround Lqa Sorted.
From stdpp Require Import base list strings gmap pretty.

Local Open Scope string_scope.

(* ===================================================================== *)
(** ** JavaScript numbers *)
(* ===================================================================== *)

Inductive number : Type :=
  | Num (q : Q)
  | NaN
  | Infinity
  | NegInfinity.

(** Sign of a rational: [Lt] negative, [Eq] zero, [Gt] positive. *)
Definition Qsign (q : Q) : comparison := (q ?= 0)%Q.

Definition inf_of_sign (c : comparison) : number :=
  match c with Gt => Infinity | Lt => NegInfinity | Eq => NaN end.

(** An array length or a counter, as a number. *)
Definition of_nat (n : nat) : number := Num (inject_Z (Z.of_nat n)).

(** [ToBoolean] on numbers: 0 and NaN are falsy. *)
Definition truthy (x : number) : bool :=
  match x with
  | Num q => negb (Qeq_bool q 0)
  | NaN => false
  | Infinity | NegInfinity => true
  end.

Definition js_add (x y : number) : number :=
  match x, y with
  | NaN, _ | _, NaN => NaN
  | Num a, Num b => Num (Qred (a + b))
  | Infinity, NegInfinity | NegInfinity, Infinity => NaN
  | Infinity, _ | _, Infinity => Infinity
  | NegInfinity, _ | _, NegInfinity => NegInfinity
  end.

Definition js_sub (x y : number) : number :=
  match x, y with
  | NaN, _ | _, NaN => NaN
  | Num a, Num b => Num (Qred (a - b))
  | Infinity, Infinity | NegInfinity, NegInfinity => NaN
  | Infinity, _ | _, NegInfinity => Infinity
  | NegInfinity, _ | _, Infinity => NegInfinity
  end.

Definition js_mul (x y : number) : number :=
  match x, y with
  | NaN, _ | _, NaN => NaN
  | Num a, Num b => Num (Qred (a * b))
  | Num a, Infinity | Infinity, Num a => inf_of_sign (Qsign a)
  | Num a, NegInfinity | NegInfinity, Num a => inf_of_sign (CompOpp (Qsign a))
  | Infinity, Infinity | NegInfinity, NegInfinity => Infinity
  | Infinity, NegInfinity | NegInfinity, Infinity => NegInfinity
  end.

(** Division: [0/0] is NaN and [a/0] is an infinity of the sign of [a]. *)
Definition js_div (x y : number) : number :=
  match x, y with
  | NaN, _ | _, NaN => NaN
  | Num a, Num b =>
      if Qeq_bool b 0 then inf_of_sign (Qsign a) else Num (Qred (a / b))
  | Num _, (Infinity | NegInfinity) => Num 0
  | Infinity, Num b => if Qle_bool 0 b then Infinity else NegInfinity
  | NegInfinity, Num b => if Qle_bool 0 b then NegInfinity else Infinity
  | (Infinity | NegInfinity), (Infinity | NegInfinity) => NaN
  end.

(** The comparisons [<=] and [<]: false as soon as one side is NaN. *)
Definition js_le (x y : number) : bool :=
  match x, y with
  | NaN, _ | _, NaN => false
  | Num a, Num b => Qle_bool a b
  | NegInfinity, _ | _, Infinity => true
  | _, _ => false
  end.

Definition js_lt (x y : number) : bool :=
  match x, y with
  | NaN, _ | _, NaN => false
  | Num a, Num b => negb (Qle_bool b a)
  | NegInfinity, NegInfinity | Infinity, Infinity => false
  | NegInfinity, _ | _, Infinity => true
  | _, _ => false
  end.

(** [x || y] on numbers. *)
Definition js_or (x y : number) : number := if truthy x then x else y.

(** [Number.prototype.toFixed(d)] for the magnitudes the cards show
    (below 1e21): round half away from zero to [d] decimals. *)
Definition pad_left (d : nat) (s : string) : string :=
  String.concat "" (replicate (d - String.length s) "0") +:+ s.

Definition toFixed (d : nat) (x : number) : string :=
  match x with
  | NaN => "NaN"
  | Infinity => "Infinity"
  | NegInfinity => "-Infinity"
  | Num q =>
      let scale := (10 ^ Z.of_nat d)%Z in
      let n := Qfloor (Qabs q * inject_Z scale + (1 # 2)) in
      let s := if Qle_bool 0 q then "" else "-" in
      let int_part := pretty (n / scale)%Z in
      match d with
      | O => s +:+ int_part
      | _ => s +:+ int_part +:+ "." +:+ pad_left d (pretty (n mod scale)%Z)
      end
  end.

(* ===================================================================== *)
(** ** Counter tables, sets and array helpers *)
(* ===================================================================== *)

(** The values met when a counter table, a plain object created by [{}],
    is read and written: numbers; the text of a function inherited from
    [Object.prototype] (implementation-defined, it is kept as the member's
    name) followed by the characters 1 that [+ 1] appended to it; the text
    [[object Object]] followed by such characters; an inherited function;
    [Object.prototype] itself; [undefined]. *)
Inductive jsval : Type :=
  | JNum (x : number)
  | JMemberText (member : string) (ones : nat)
  | JObjectText (ones : nat)
  | JFunction (member : string)
  | JPrototype
  | JUndefined.

Coercion JNum : number >-> jsval.

(** [ToNumber]: a text that starts with [function] or [[object] is no
    numeral. *)
Definition ToNumber (v : jsval) : number :=
  match v with
  | JNum x => x
  | _ => NaN
  end.

(** [ToBoolean]: the texts are not empty. *)
Definition truthy_val (v : jsval) : bool :=
  match v with
  | JNum x => truthy x
  | JUndefined => false
  | _ => true
  end.

(** [v + 1]: a number is incremented, anything else is turned into text
    and the character 1 is appended. *)
Definition plus1 (v : jsval) : jsval :=
  match v with
  | JNum x => JNum (js_add x (Num 1))
  | JMemberText member ones => JMemberText member (S ones)
  | JObjectText ones => JObjectText (S ones)
  | JFunction member => JMemberText member 1
  | JPrototype => JObjectText 1
  | JUndefined => JNum NaN
  end.

(** The functions every object inherits from [Object.prototype]; the
    accessor [__proto__] is treated apart. *)
Definition Object_prototype_functions : list string :=
  [ "constructor"; "__defineGetter__"; "__defineSetter__"; "hasOwnProperty";
    "__lookupGetter__"; "__lookupSetter__"; "isPrototypeOf"; "propertyIsEnumerable";
    "toString"; "valueOf"; "toLocaleString" ].

(** [interface CountObject { [key: string]: number }]: the own properties
    of the object, in the order they were created. *)
Definition CountObject : Type := list (string * jsval).

Fixpoint co_own (acc : CountObject) (key : string) : option jsval :=
  match acc with
  | [] => None
  | (k, v) :: rest => if String.eqb k key then Some v else co_own rest key
  end.

Fixpoint co_set (acc : CountObject) (key : string) (v : jsval) : CountObject :=
  match acc with
  | [] => [(key, v)]
  | (k, w) :: rest =>
      if String.eqb k key then (k, v) :: rest else (k, w) :: co_set rest key v
  end.

(** [acc[key]]: the own property, else what [Object.prototype] holds
    under that name, else [undefined]. *)
Definition co_get (acc : CountObject) (key : string) : jsval :=
  match co_own acc key with
  | Some v => v
  | None =>
      if String.eqb key "__proto__" then JPrototype
      else if existsb (String.eqb key) Object_prototype_functions then JFunction key
      else JUndefined
  end.

(** [acc[key] = v] for a number or a text [v]: under the name [__proto__]
    the inherited setter runs and ignores such a value; under any other
    name the own property is created or overwritten. *)
Definition co_assign (acc : CountObject) (key : string) (v : jsval) : CountObject :=
  if String.eqb key "__proto__" then acc else co_set acc key v.

(** [acc[key] = (acc[key] || 0) + 1; return acc]. *)
Definition co_bump (acc : CountObject) (key : string) : CountObject :=
  let read := co_get acc key in
  co_assign acc key (plus1 (if truthy_val read then read else JNum (Num 0))).

(** The array indices among the property names: the canonical numerals of
    the integers below [2^32 - 1]. *)
Definition digit_value (a : ascii) : option N :=
  let n := N.of_nat (nat_of_ascii a) in
  if ((48 <=? n) && (n <=? 57))%N then Some (n - 48)%N else None.

Fixpoint decimal_value (s : string) (acc : N) : option N :=
  match s with
  | EmptyString => Some acc
  | String a rest =>
      match digit_value a with
      | Some d => decimal_value rest (acc * 10 + d)%N
      | None => None
      end
  end.

Definition array_index (key : string) : option N :=
  match key with
  | EmptyString => None
  | String a rest =>
      match decimal_value key 0 with
      | Some n =>
          if (negb (Ascii.eqb a "0") || String.eqb rest "") && (n <? 4294967295)%N
          then Some n else None
      | None => None
      end
  end.

Fixpoint insert_key (i : N) (key : string) (l : list (N * string)) : list (N * string) :=
  match l with
  | [] => [(i, key)]
  | (j, k) :: rest =>
      if (i <=? j)%N then (i, key) :: (j, k) :: rest else (j, k) :: insert_key i key rest
  end.

(** The array indices of a list of names, in ascending order. *)
Definition index_keys (keys : list string) : list (N * string) :=
  fold_right (λ key l, match array_index key with
                       | Some i => insert_key i key l
                       | None => l
                       end) [] keys.

(** The other names, in the order given. *)
Definition string_keys (keys : list string) : list string :=
  List.filter (λ key, match array_index key with Some _ => false | None => true end) keys.

(** [Object.keys(acc)]: the array indices in ascending order, then the
    other names in the order their properties were created. *)
Definition Object_keys (acc : CountObject) : list string :=
  app (map snd (index_keys (map fst acc))) (string_keys (map fst acc)).

(** [data.reduce((acc, x) => { acc[f(x)] = (acc[f(x)] || 0) + 1; return acc }, {})]. *)
Definition count_by {A : Type} (f : A → string) (data : list A) : CountObject :=
  fold_left (λ acc x, co_bump acc (f x)) data [].

(** [new Set(xs)], listed in insertion order by the spread. *)
Definition Set_add (s : list string) (x : string) : list string :=
  if existsb (String.eqb x) s then s else s ++ [x].

Definition Set_spread (xs : list string) : list string :=
  fold_left Set_add xs [].

(** One entry of a chart series: [{ name, value, percentage }]. *)
Record ChartEntry : Type := mkEntry {
  name : string;
  value : jsval;
  percentage : number
}.

(** [Object.keys(counts).map(key => ({ name: key, value: counts[key],
    percentage: (counts[key] / total) * 100 }))]. *)
Definition chart_series (counts : CountObject) (total : number) : list ChartEntry :=
  map (λ key, {| name := key;
                 value := co_get counts key;
                 percentage := js_mul (js_div (ToNumber (co_get counts key)) total) (Num 100) |})
      (Object_keys counts).

(** Sum of the listed percentages of a series, left to right. *)
Definition percentage_sum (series : list ChartEntry) : number :=
  fold_left (λ s e, js_add s (percentage e)) series (Num 0).

(* ===================================================================== *)
(** ** The alert aggregator *)
(* ===================================================================== *)

Module Edr.

(** [interface EdrDataType]. [IOCType] may be missing from a row. *)
Record EdrDataType : Type := mkAlert {
  Severity : string;
  IOCType : option string;
  AlertType : string;
  Status : string;
  Hostname : string
}.

(** [interface EdrKpis]. *)
Record EdrKpis : Type := mkEdrKpis {
  totalAlerts : number;
  criticalRate : number;
  iocDetectionRate : number;
  severityData : list ChartEntry;
  alertTypeData : list ChartEntry;
  suspiciousConnectionRate : number;
  uniqueEndpoints : number;
  statusData : list ChartEntry
}.

Definition calculateSeverityCounts (data : list EdrDataType) : CountObject :=
  count_by Severity data.

Definition calculateAlertTypeCounts (data : list EdrDataType) : CountObject :=
  count_by AlertType data.

Definition calculateStatusCounts (data : list EdrDataType) : CountObject :=
  count_by Status data.

(** [alert.IOCType && alert.IOCType !== "None" && alert.IOCType !== ""]. *)
Definition hasIoC (alert : EdrDataType) : bool :=
  match IOCType alert with
  | None => false
  | Some s => negb (String.eqb s "") && negb (String.eqb s "None") && negb (String.eqb s "")
  end.

Definition isNetworkConnection (alert : EdrDataType) : bool :=
  String.eqb (AlertType alert) "Network Connection".

Definition isSuspiciousConnection (alert : EdrDataType) : bool :=
  String.eqb (AlertType alert) "Network Connection"
  && (String.eqb (Severity alert) "Critical" || String.eqb (Severity alert) "High").

Definition calculateEdrKpis (data : list EdrDataType) : EdrKpis :=
  let totalAlerts := of_nat (length data) in
  let criticalAlerts :=
    of_nat (length (List.filter (λ alert, String.eqb (Severity alert) "Critical") data)) in
  let criticalRate := js_mul (js_div criticalAlerts totalAlerts) (Num 100) in
  let alertsWithIoC := of_nat (length (List.filter hasIoC data)) in
  let iocDetectionRate := js_mul (js_div alertsWithIoC totalAlerts) (Num 100) in
  let severityCounts := calculateSeverityCounts data in
  let severityData := chart_series severityCounts totalAlerts in
  let alertTypeCounts := calculateAlertTypeCounts data in
  let alertTypeData := chart_series alertTypeCounts totalAlerts in
  let networkConnections := of_nat (length (List.filter isNetworkConnection data)) in
  let suspiciousConnections := of_nat (length (List.filter isSuspiciousConnection data)) in
  let suspiciousConnectionRate :=
    if truthy networkConnections
    then js_mul (js_div suspiciousConnections networkConnections) (Num 100)
    else Num 0 in
  let uniqueEndpoints := Set_spread (map Hostname data) in
  let statusCounts := calculateStatusCounts data in
  let statusData := chart_series statusCounts totalAlerts in
  {| totalAlerts := totalAlerts;
     criticalRate := criticalRate;
     iocDetectionRate := iocDetectionRate;
     severityData := severityData;
     alertTypeData := alertTypeData;
     suspiciousConnectionRate := suspiciousConnectionRate;
     uniqueEndpoints := of_nat (length uniqueEndpoints);
     statusData := statusData |}.

End Edr.

(* ===================================================================== *)
(** ** The vulnerability aggregator *)
(* ===================================================================== *)

(** [1000 * 60 * 60 * 24], the milliseconds of a day. *)
Definition msPerDay : number :=
  Eval vm_compute in js_mul (js_mul (js_mul (Num 1000) (Num 60)) (Num 60)) (Num 24).

(** Truthiness of a string cell: present and not empty. *)
Definition present (cell : option string) : bool :=
  match cell with
  | None => false
  | Some s => negb (String.eqb s "")
  end.

Module Vuln.

(** [interface VulnDataType]. The two dates and the timeframe may be
    missing from a row ([None] is the parser's [null]). *)
Record VulnDataType : Type := mkVuln {
  Severity : string;
  Status : string;
  DetectionSource : string;
  DetectionDate : option string;
  PatchAppliedDate : option string;
  IsCritical : string;
  IsPatchable : string;
  AssetID : string;
  RecommendedTimeframe : option number
}.

(** [interface VulnKpis]. *)
Record VulnKpis : Type := mkVulnKpis {
  totalVulnerabilities : number;
  severityData : list ChartEntry;
  statusData : list ChartEntry;
  sourceData : list ChartEntry;
  remediationRate : number;
  avgRemediationTime : number;
  criticalVulnerabilityRate : number;
  patchesInTimeRate : number
}.

Definition calculateVulnSeverityCounts (data : list VulnDataType) : CountObject :=
  count_by Severity data.

Definition calculateVulnStatusCounts (data : list VulnDataType) : CountObject :=
  count_by Status data.

Definition calculateSourceCounts (data : list VulnDataType) : CountObject :=
  count_by DetectionSource data.

Definition isResolved (vuln : VulnDataType) : bool :=
  String.eqb (Status vuln) "Resolved".

(** [vuln.Status === "Resolved" && vuln.PatchAppliedDate && vuln.DetectionDate]. *)
Definition isResolvedWithDates (vuln : VulnDataType) : bool :=
  String.eqb (Status vuln) "Resolved"
  && present (PatchAppliedDate vuln) && present (DetectionDate vuln).

Definition isCriticalAsset (vuln : VulnDataType) : bool :=
  String.eqb (IsCritical vuln) "Oui".

Definition isUnpatchableCritical (vuln : VulnDataType) : bool :=
  String.eqb (IsCritical vuln) "Oui" && String.eqb (IsPatchable vuln) "Non".

(** [vuln.RecommendedTimeframe || Infinity]. *)
Definition recommendedDays (vuln : VulnDataType) : number :=
  match RecommendedTimeframe vuln with
  | None => Infinity
  | Some t => js_or t Infinity
  end.

Section WithDate.

(** [new Date(s).getTime()]: the host's date parser, NaN on a string
    it does not read as a date. *)
Variable Date_getTime : string → number.

(** [new Date(cell).getTime()]; only reached on cells that are present. *)
Definition getTime (cell : option string) : number :=
  match cell with
  | Some s => Date_getTime s
  | None => NaN
  end.

(** [(patchDate.getTime() - detectionDate.getTime()) / (1000 * 60 * 60 * 24)]. *)
Definition daysDiff (vuln : VulnDataType) : number :=
  js_div (js_sub (getTime (PatchAppliedDate vuln)) (getTime (DetectionDate vuln)))
         msPerDay.

Definition calculateVulnKpis (data : list VulnDataType) : VulnKpis :=
  let totalVulnerabilities := of_nat (length data) in
  let severityCounts := calculateVulnSeverityCounts data in
  let severityData := chart_series severityCounts totalVulnerabilities in
  let statusCounts := calculateVulnStatusCounts data in
  let statusData := chart_series statusCounts totalVulnerabilities in
  let sourceCounts := calculateSourceCounts data in
  let sourceData := chart_series sourceCounts totalVulnerabilities in
  let resolvedVulnerabilities := of_nat (length (List.filter isResolved data)) in
  let remediationRate :=
    js_mul (js_div resolvedVulnerabilities totalVulnerabilities) (Num 100) in
  let resolvedVulns := List.filter isResolvedWithDates data in
  let totalRemediationTime :=
    fold_left (λ total vuln, js_add total (daysDiff vuln)) resolvedVulns (Num 0) in
  let avgRemediationTime :=
    if js_lt (Num 0) (of_nat (length resolvedVulns))
    then js_div totalRemediationTime (of_nat (length resolvedVulns))
    else Num 0 in
  let criticalAssets :=
    Set_spread (map AssetID (List.filter isCriticalAsset data)) in
  let unpatchableCriticalAssets :=
    Set_spread (map AssetID (List.filter isUnpatchableCritical data)) in
  let criticalVulnerabilityRate :=
    if js_lt (Num 0) (of_nat (length criticalAssets))
    then js_mul (js_div (of_nat (length unpatchableCriticalAssets))
                        (of_nat (length criticalAssets))) (Num 100)
    else Num 0 in
  let patchesInTime :=
    fold_left (λ n vuln, if js_le (daysDiff vuln) (recommendedDays vuln)
                         then S n else n) resolvedVulns O in
  let patchesInTimeRate :=
    if js_lt (Num 0) (of_nat (length resolvedVulns))
    then js_mul (js_div (of_nat patchesInTime) (of_nat (length resolvedVulns))) (Num 100)
    else Num 0 in
  {| totalVulnerabilities := totalVulnerabilities;
     severityData := severityData;
     statusData := statusData;
     sourceData := sourceData;
     remediationRate := remediationRate;
     avgRemediationTime := avgRemediationTime;
     criticalVulnerabilityRate := criticalVulnerabilityRate;
     patchesInTimeRate := patchesInTimeRate |}.

End WithDate.

End Vuln.

(* ===================================================================== *)
(** ** A date reader for the examples *)
(* ===================================================================== *)

(** The aggregator is parametric in the host's [Date]. For concrete runs
    the ISO date-only form [YYYY-MM-DD] is read as UTC midnight of that
    day, in milliseconds since the epoch; anything else is NaN. *)
Module IsoDate.

Definition digit (a : ascii) : option Z :=
  let n := (Z.of_nat (nat_of_ascii a) - 48)%Z in
  if ((0 <=? n) && (n <=? 9))%Z then Some n else None.

Fixpoint digits (s : string) (acc : Z) : option Z :=
  match s with
  | EmptyString => Some acc
  | String a rest =>
      match digit a with
      | Some d => digits rest (acc * 10 + d)%Z
      | None => None
      end
  end.

Definition isLeap (y : Z) : bool :=
  (((y mod 4 =? 0) && negb (y mod 100 =? 0)) || (y mod 400 =? 0))%Z.

Definition daysInMonth (y m : Z) : Z :=
  if (m =? 2)%Z then (if isLeap y then 29 else 28)%Z
  else if ((m =? 4) || (m =? 6) || (m =? 9) || (m =? 11))%Z then 30%Z
  else 31%Z.

(** Days from 1970-01-01 to the civil date [y-m-d]. *)
Definition daysFromCivil (y m d : Z) : Z :=
  let y' := (if m <=? 2 then y - 1 else y)%Z in
  let era := (y' / 400)%Z in
  let yoe := (y' - era * 400)%Z in
  let mp := (if 2 <? m then m - 3 else m + 9)%Z in
  let doy := ((153 * mp + 2) / 5 + d - 1)%Z in
  let doe := (yoe * 365 + yoe / 4 - yoe / 100 + doy)%Z in
  (era * 146097 + doe - 719468)%Z.

Definition getTime (s : string) : number :=
  if negb (String.length s =? 10)%nat then NaN else
  if negb (String.eqb (String.substring 4 1 s) "-" && String.eqb (String.substring 7 1 s) "-") then NaN else
  match digits (String.substring 0 4 s) 0, digits (String.substring 5 2 s) 0, digits (String.substring 8 2 s) 0 with
  | Some y, Some m, Some d =>
      if ((1 <=? m) && (m <=? 12) && (1 <=? d) && (d <=? daysInMonth y m))%Z
      then Num (inject_Z (daysFromCivil y m d * 86400000))
      else NaN
  | _, _, _ => NaN
  end.

End IsoDate.

(* ===================================================================== *)
(** ** The component: state, load routine and view *)
(* ===================================================================== *)

Module Dashboard.

(** What an awaited call settles to: a value, or a thrown error. *)
Inductive result (E A : Type) : Type :=
  | Ok (a : A)
  | Throw (e : E).
Arguments Ok {E A} a.
Arguments Throw {E A} e.

(** The [useState] cells of the component and the diagnostic log
    ([console.error] appends a line). *)
Record State (E : Type) : Type := mkState {
  edrData : list Edr.EdrDataType;
  vulnData : list Vuln.VulnDataType;
  edrKpis : Edr.EdrKpis;
  vulnKpis : Vuln.VulnKpis;
  loading : bool;
  console : list (string * E)
}.
Arguments mkState {E}.
Arguments edrData {E}.
Arguments vulnData {E}.
Arguments edrKpis {E}.
Arguments vulnKpis {E}.
Arguments loading {E}.
Arguments console {E}.

(** The initial values handed to [useState]. *)
Definition initialEdrKpis : Edr.EdrKpis :=
  {| Edr.totalAlerts := Num 0;
     Edr.criticalRate := Num 0;
     Edr.iocDetectionRate := Num 0;
     Edr.severityData := [];
     Edr.alertTypeData := [];
     Edr.suspiciousConnectionRate := Num 0;
     Edr.uniqueEndpoints := Num 0;
     Edr.statusData := [] |}.

Definition initialVulnKpis : Vuln.VulnKpis :=
  {| Vuln.totalVulnerabilities := Num 0;
     Vuln.severityData := [];
     Vuln.statusData := [];
     Vuln.sourceData := [];
     Vuln.remediationRate := Num 0;
     Vuln.avgRemediationTime := Num 0;
     Vuln.criticalVulnerabilityRate := Num 0;
     Vuln.patchesInTimeRate := Num 0 |}.

Definition initialState {E : Type} : State E :=
  mkState [] [] initialEdrKpis initialVulnKpis true [].

(** What the component renders: the spinner, or the cards and the pie
    labels. No field of the view carries an error. *)
Record Cards : Type := mkCards {
  criticalRateCard : string;
  totalAlertsLine : number;
  iocDetectionRateCard : string;
  suspiciousConnectionRateCard : string;
  edrSeverityLabels : list string;
  criticalVulnerabilityRateCard : string;
  remediationRateCard : string;
  avgRemediationTimeCard : string;
  patchesInTimeRateCard : string;
  vulnSeverityLabels : list string
}.

Inductive View : Type :=
  | Spinner
  | Page (cards : Cards).

(** [`${name}: ${percentage.toFixed(1)}%`]. *)
Definition pieLabel (e : ChartEntry) : string :=
  name e +:+ ": " +:+ toFixed 1 (percentage e) +:+ "%".

Definition render {E : Type} (st : State E) : View :=
  if loading st then Spinner
  else Page
    {| criticalRateCard := toFixed 1 (Edr.criticalRate (edrKpis st)) +:+ "%";
       totalAlertsLine := Edr.totalAlerts (edrKpis st);
       iocDetectionRateCard := toFixed 1 (Edr.iocDetectionRate (edrKpis st)) +:+ "%";
       suspiciousConnectionRateCard :=
         toFixed 1 (Edr.suspiciousConnectionRate (edrKpis st)) +:+ "%";
       edrSeverityLabels := map pieLabel (Edr.severityData (edrKpis st));
       criticalVulnerabilityRateCard :=
         toFixed 1 (Vuln.criticalVulnerabilityRate (vulnKpis st)) +:+ "%";
       remediationRateCard := toFixed 1 (Vuln.remediationRate (vulnKpis st)) +:+ "%";
       avgRemediationTimeCard := toFixed 0 (Vuln.avgRemediationTime (vulnKpis st)) +:+ " j";
       patchesInTimeRateCard := toFixed 1 (Vuln.patchesInTimeRate (vulnKpis st)) +:+ "%";
       vulnSeverityLabels := map pieLabel (Vuln.severityData (vulnKpis st)) |}.

Section WithHost.

(** The host: thrown values, the network, the CSV parser, [Date]. *)
Variable Error : Type.
Variable Response : Type.
Variable fetch : string → result Error Response.
Variable Response_text : Response → result Error string.
Variable Papa_parse_edr : string → result Error (list Edr.EdrDataType).
Variable Papa_parse_vuln : string → result Error (list Vuln.VulnDataType).
Variable Date_getTime : string → number.

(** Effectful code: the state is threaded, and survives a throw. *)
Definition M (A : Type) : Type := State Error → result Error A * State Error.

#[local] Instance M_ret : MRet M := λ A a st, (Ok a, st).
#[local] Instance M_bind : MBind M := λ A B f m st,
  match m st with
  | (Ok a, st') => f a st'
  | (Throw e, st') => (Throw e, st')
  end.

Definition await {A : Type} (r : result Error A) : M A := λ st, (r, st).

Definition try_catch {A : Type} (body : M A) (handler : Error → M A) : M A :=
  λ st, match body st with
        | (Ok a, st') => (Ok a, st')
        | (Throw e, st') => handler e st'
        end.

Definition setEdrData (d : list Edr.EdrDataType) : M unit := λ st,
  (Ok tt, mkState d (vulnData st) (edrKpis st) (vulnKpis st) (loading st) (console st)).
Definition setVulnData (d : list Vuln.VulnDataType) : M unit := λ st,
  (Ok tt, mkState (edrData st) d (edrKpis st) (vulnKpis st) (loading st) (console st)).
Definition setEdrKpis (k : Edr.EdrKpis) : M unit := λ st,
  (Ok tt, mkState (edrData st) (vulnData st) k (vulnKpis st) (loading st) (console st)).
Definition setVulnKpis (k : Vuln.VulnKpis) : M unit := λ st,
  (Ok tt, mkState (edrData st) (vulnData st) (edrKpis st) k (loading st) (console st)).
Definition setLoading (b : bool) : M unit := λ st,
  (Ok tt, mkState (edrData st) (vulnData st) (edrKpis st) (vulnKpis st) b (console st)).
Definition console_error (msg : string) (e : Error) : M unit := λ st,
  (Ok tt, mkState (edrData st) (vulnData st) (edrKpis st) (vulnKpis st) (loading st)
                  (console st ++ [(msg, e)])).

(** The component-level [calculateEdrKpis] and [calculateVulnKpis]:
    compute the summary and store it. *)
Definition calculateEdrKpis (data : list Edr.EdrDataType) : M unit :=
  setEdrKpis (Edr.calculateEdrKpis data).
Definition calculateVulnKpis (data : list Vuln.VulnDataType) : M unit :=
  setVulnKpis (Vuln.calculateVulnKpis Date_getTime data).

Definition loadData : M unit :=
  try_catch
    (edrResponse ← await (fetch "/public/edr_data.csv");
     edrText ← await (Response_text edrResponse);
     edrResult ← await (Papa_parse_edr edrText);
     vulnResponse ← await (fetch "/public/vulnerabilities_data.csv");
     vulnText ← await (Response_text vulnResponse);
     vulnResult ← await (Papa_parse_vuln vulnText);
     setEdrData edrResult;;
     setVulnData vulnResult;;
     calculateEdrKpis edrResult;;
     calculateVulnKpis vulnResult;;
     setLoading false)
    (λ error,
     console_error "Erreur lors du chargement des données:" error;;
     setLoading false).

(** Reading one source: fetch, body text, parse. *)
Definition readSource {A : Type} (url : string)
    (parse : string → result Error (list A)) : result Error (list A) :=
  match fetch url with
  | Throw e => Throw e
  | Ok response =>
      match Response_text response with
      | Throw e => Throw e
      | Ok text => parse text
      end
  end.

(** A load failure that throws, with error [e]: reading the first source
    throws (a rejected request, an unreadable body, an exception of the
    parser), or the first source is read and reading the second throws. *)
Definition thrownFailure (e : Error) : Prop :=
  readSource "/public/edr_data.csv" Papa_parse_edr = Throw e
  ∨ (∃ rows, readSource "/public/edr_data.csv" Papa_parse_edr = Ok rows
             ∧ readSource "/public/vulnerabilities_data.csv" Papa_parse_vuln = Throw e).

(** What the host reports besides and the load routine never reads: the
    [ok] flag of a response and the [errors] array of a parse result. *)
Variable Response_ok : Response → bool.
Variable Papa_errors : string → list string.

(** Reading a source fails, thrown or not: the request is rejected or
    answered with an HTTP error status, the body cannot be read, or the
    parser throws or reports errors. *)
Definition sourceFails {A : Type} (url : string)
    (parse : string → result Error (list A)) : Prop :=
  match fetch url with
  | Throw _ => True
  | Ok response =>
      Response_ok response = false
      ∨ match Response_text response with
        | Throw _ => True
        | Ok text => Papa_errors text ≠ [] ∨ ∃ e, parse text = Throw e
        end
  end.

(** A data-load failure on either source. *)
Definition anyLoadFailure : Prop :=
  sourceFails "/public/edr_data.csv" Papa_parse_edr
  ∨ sourceFails "/public/vulnerabilities_data.csv" Papa_parse_vuln.

End WithHost.

End Dashboard.

(* ===================================================================== *)
(** ** Reference notions the properties are stated with *)
(* ===================================================================== *)

(** [100 * c / t] in exact arithmetic, as a number. *)
Definition percent (c t : nat) : number :=
  Num (Qred (100 * inject_Z (Z.of_nat c) / inject_Z (Z.of_nat t))).

(** The rational a finite number stands for. *)
Definition finite (x : number) : Prop := ∃ q, x = Num q.

Definition Qval (x : number) : Q :=
  match x with Num q => q | _ => 0%Q end.

Definition Qsum (l : list Q) : Q := fold_right Qplus 0%Q l.

(** The number of records that carry a label. *)
Definition label_count {A : Type} (f : A → string) (data : list A) (key : string) : nat :=
  length (filter (λ x, f x = key) data).

(** A label that a counter table treats as an ordinary key: neither
    [__proto__] nor the name of a function inherited from
    [Object.prototype]. *)
Definition plainLabel (key : string) : Prop :=
  key ≠ "__proto__" ∧ key ∉ Object_prototype_functions.

(** What a counter table holds under a label carried by [n] records:
    nothing when no record carries it and nothing under [__proto__]; the
    text of the inherited function followed by [n] characters 1 under the
    name of such a function; the number [n] under any other label. *)
Definition counted (key : string) (n : nat) : option jsval :=
  if decide (n = O) then None
  else if decide (key = "__proto__") then None
  else if decide (key ∈ Object_prototype_functions) then Some (JMemberText key n)
  else Some (JNum (of_nat n)).

(** The distinct asset identifiers among the critical records, and among
    the critical records that cannot be patched. *)
Definition distinctCriticalAssets (data : list Vuln.VulnDataType) : gset string :=
  list_to_set (map Vuln.AssetID (filter (λ v, Vuln.IsCritical v = "Oui") data)).

Definition distinctUnpatchableCriticalAssets (data : list Vuln.VulnDataType) : gset string :=
  list_to_set (map Vuln.AssetID
    (filter (λ v, Vuln.IsCritical v = "Oui" ∧ Vuln.IsPatchable v = "Non") data)).

(** The records the remediation time is measured on, the days elapsed
    from detection to patch on such a record, and what it takes for the
    elapsed time to exist: both dates are read as finite time values. *)
Definition resolvedWithDates (data : list Vuln.VulnDataType) : list Vuln.VulnDataType :=
  filter (λ v, Vuln.Status v = "Resolved"
               ∧ present (Vuln.PatchAppliedDate v) ∧ present (Vuln.DetectionDate v)) data.

Definition elapsedDays (Date_getTime : string → number) (v : Vuln.VulnDataType) : Q :=
  (Qval (Vuln.getTime Date_getTime (Vuln.PatchAppliedDate v))
   - Qval (Vuln.getTime Date_getTime (Vuln.DetectionDate v))) / 86400000.

Definition datesReadable (Date_getTime : string → number) (v : Vuln.VulnDataType) : Prop :=
  finite (Vuln.getTime Date_getTime (Vuln.PatchAppliedDate v))
  ∧ finite (Vuln.getTime Date_getTime (Vuln.DetectionDate v)).

(** The on-time rate in the specification's words: a record of the
    subset is on time when its elapsed days are at most its recommended
    timeframe, an absent timeframe being unbounded. *)
Definition onTime_spec (Date_getTime : string → number) (v : Vuln.VulnDataType) : bool :=
  match Vuln.RecommendedTimeframe v with
  | None => true
  | Some t => js_le (Num (elapsedDays Date_getTime v)) t
  end.

Definition onTimePatchRate_spec (Date_getTime : string → number)
    (data : list Vuln.VulnDataType) : number :=
  let subset := resolvedWithDates data in
  if decide (length subset = O) then Num 0
  else percent (length (List.filter (onTime_spec Date_getTime) subset)) (length subset).

(* ===================================================================== *)
(** ** Sample data *)
(* ===================================================================== *)

Definition alert_of_severity (severity : string) : Edr.EdrDataType :=
  Edr.mkAlert severity (Some "hash") "Malware" "Open" "host-1".

Definition three_alerts : list Edr.EdrDataType :=
  [ alert_of_severity "Critical"; alert_of_severity "Critical"; alert_of_severity "Low" ].

(** Two alerts, the first of severity [__proto__]. *)
Definition proto_alerts : list Edr.EdrDataType :=
  [ alert_of_severity "__proto__"; alert_of_severity "Low" ].

Definition vuln_resolved (detected patched : string) (timeframe : option number)
    : Vuln.VulnDataType :=
  Vuln.mkVuln "High" "Resolved" "Scanner" (Some detected) (Some patched)
              "Non" "Oui" "asset-1" timeframe.

(** What the page shows for the initial, all-zero summaries. *)
Definition zeroCards : Dashboard.Cards :=
  {| Dashboard.criticalRateCard := "0.0%";
     Dashboard.totalAlertsLine := Num 0;
     Dashboard.iocDetectionRateCard := "0.0%";
     Dashboard.suspiciousConnectionRateCard := "0.0%";
     Dashboard.edrSeverityLabels := [];
     Dashboard.criticalVulnerabilityRateCard := "0.0%";
     Dashboard.remediationRateCard := "0.0%";
     Dashboard.avgRemediationTimeCard := "0 j";
     Dashboard.patchesInTimeRateCard := "0.0%";
     Dashboard.vulnSeverityLabels := [] |}.

(** A host whose first source loads and whose second one is unreachable. *)
Definition sample_fetch (url : string) : Dashboard.result string string :=
  if String.eqb url "/public/edr_data.csv" then Dashboard.Ok "Severity,IOCType,AlertType,Status,Hostname"
  else Dashboard.Throw "TypeError: Failed to fetch".

Definition sample_text (body : string) : Dashboard.result string string :=
  Dashboard.Ok body.

Definition sample_parse_edr (text : string) : Dashboard.result string (list Edr.EdrDataType) :=
  Dashboard.Ok three_alerts.

Definition sample_parse_vuln (text : string) : Dashboard.result string (list Vuln.VulnDataType) :=
  Dashboard.Ok [].

(** A host whose two sources load and hold a header row only. *)
Definition header_only_fetch (url : string) : Dashboard.result string string :=
  Dashboard.Ok "header".

Definition header_only_edr (text : string) : Dashboard.result string (list Edr.EdrDataType) :=
  Dashboard.Ok [].

(* ===================================================================== *)
(** ** Chart colours and the bar chart *)
(* ===================================================================== *)

(** [const COLORS = [...]], the palette of the charts. *)
Definition COLORS : list string :=
  [ "#0088FE"; "#00C49F"; "#FFBB28"; "#FF8042"; "#8884d8"; "#82ca9d"; "#ffc658"; "#8dd1e1" ].

(** [const SEVERITY_COLORS], by its own keys. *)
Definition SEVERITY_COLORS : list (string * string) :=
  [ ("Critical", "#d9534f"); ("High", "#f0ad4e"); ("Medium", "#5bc0de"); ("Low", "#5cb85c");
    ("Critique", "#d9534f"); ("Majeure", "#f0ad4e"); ("Mineure", "#5cb85c") ].

(** The own property of a colour table under a key, if any. *)
Fixpoint color_own (table : list (string * string)) (key : string) : option string :=
  match table with
  | [] => None
  | (k, c) :: rest => if String.eqb k key then Some c else color_own rest key
  end.

(** What a [fill] attribute is given: a colour, a member inherited from
    [Object.prototype] (an object or a function, no colour), or
    [undefined]. *)
Inductive fillValue : Type :=
  | FillColour (c : string)
  | FillInherited (member : string)
  | FillUndefined.

(** [SEVERITY_COLORS[key]]: the own colour, else what [Object.prototype]
    holds under that name, else [undefined]. *)
Definition severity_color (key : string) : fillValue :=
  match color_own SEVERITY_COLORS key with
  | Some c => FillColour c
  | None =>
      if String.eqb key "__proto__" || existsb (String.eqb key) Object_prototype_functions
      then FillInherited key
      else FillUndefined
  end.

(** [COLORS[index % COLORS.length]]. *)
Definition cellFill (index : nat) : option string :=
  COLORS !! (index mod length COLORS)%nat.

Definition palette_fill (index : nat) : fillValue :=
  match cellFill index with
  | Some c => FillColour c
  | None => FillUndefined
  end.

(** [SEVERITY_COLORS[entry.name] || COLORS[index % COLORS.length]]. *)
Definition vulnCellFill (entry : ChartEntry) (index : nat) : fillValue :=
  match severity_color (name entry) with
  | FillColour c => if String.eqb c "" then palette_fill index else FillColour c
  | FillInherited member => FillInherited member
  | FillUndefined => palette_fill index
  end.

(** [series.map((_, index) => <Cell fill={COLORS[index % COLORS.length]} />)]. *)
Definition cellFills (series : list ChartEntry) : list (option string) :=
  imap (λ index _, cellFill index) series.

(** [series.map((entry, index) => <Cell fill={SEVERITY_COLORS[entry.name] || ...} />)]. *)
Definition vulnCellFills (series : list ChartEntry) : list fillValue :=
  imap (λ index entry, vulnCellFill entry index) series.

(** [edrKpis.alertTypeData?.slice(0, 6)], the bars of the alert-type chart. *)
Definition alertTypeBars (k : Edr.EdrKpis) : list ChartEntry :=
  take 6 (Edr.alertTypeData k).

(* ===================================================================== *)
(** ** Further reference notions *)
(* ===================================================================== *)

(** What a series says about the records it was built from: every entry
    names a label, other than [__proto__], carried by at least one record;
    under the name of an inherited function its value is a text and its
    percentage NaN; under any other name its value is the number of
    records with that label and its percentage that number over the
    number of records. *)
Definition series_of {A : Type} (f : A → string) (data : list A)
    (series : list ChartEntry) : Prop :=
  ∀ e, e ∈ series →
    let n := label_count f data (name e) in
    (1 ≤ n)%nat ∧ name e ≠ "__proto__"
    ∧ if decide (name e ∈ Object_prototype_functions)
      then value e = JMemberText (name e) n ∧ percentage e = NaN
      else value e = JNum (of_nat n) ∧ percentage e = percent n (length data).

(** Sum of the values of a series read as numbers, left to right. *)
Definition value_sum (series : list ChartEntry) : number :=
  fold_left (λ s e, js_add s (ToNumber (value e))) series (Num 0).

(** The on-time test as the aggregator makes it on a record with readable
    dates: a timeframe that is absent, 0 or NaN sets no deadline. *)
Definition onTime_coded (Date_getTime : string → number) (v : Vuln.VulnDataType) : bool :=
  match Vuln.RecommendedTimeframe v with
  | None => true
  | Some t => if truthy t then js_le (Num (elapsedDays Date_getTime v)) t else true
  end.

(** A host that answers every request. *)
Definition sample_parse_two_vulns (text : string)
    : Dashboard.result string (list Vuln.VulnDataType) :=
  Dashboard.Ok [ vuln_resolved "2024-01-01" "2024-01-03" None;
                 vuln_resolved "2024-02-27" "2024-03-02" (Some (Num 3)) ].

(** An alert carries an indicator of compromise when its IoC cell is
    present and is neither empty nor the word None (as written). *)
Definition carriesIoC (alert : Edr.EdrDataType) : Prop :=
  match Edr.IOCType alert with
  | Some s => s ≠ "" ∧ s ≠ "None"
  | None => False
  end.

#[global] Instance carriesIoC_dec (alert : Edr.EdrDataType) : Decision (carriesIoC alert).
Proof. unfold carriesIoC. destruct (Edr.IOCType alert); apply _. Defined.

(** The labels of a field that a counter table keeps: all but [__proto__]. *)
Definition kept_labels {A : Type} (f : A → string) (data : list A) : list string :=
  List.filter (λ key, negb (String.eqb key "__proto__")) (map f data).

(** What the names of a series are: the distinct kept labels, each once;
    the array indices among them first, in ascending order, then the
    others in the order the records first show them; so in the order the
    records first show them when no label is an array index. *)
Definition names_of {A : Type} (f : A → string) (data : list A)
    (series : list ChartEntry) : Prop :=
  let distinct := Set_spread (kept_labels f data) in
  NoDup (map name series)
  ∧ map name series ≡ₚ distinct
  ∧ map name series = app (map snd (index_keys distinct)) (string_keys distinct)
  ∧ Sorted N.le (map fst (index_keys distinct))
  ∧ ((∀ x, x ∈ data → array_index (f x) = None) → map name series = distinct).

(** What the values of a series add up to when no label names an
    inherited function: the number of records whose label is kept. *)
Definition values_total {A : Type} (f : A → string) (data : list A)
    (series : list ChartEntry) : Prop :=
  (∀ x, x ∈ data → f x ∉ Object_prototype_functions) →
  value_sum series = of_nat (length (filter (λ x, f x ≠ "__proto__") data)).

(** Alerts whose types are the numerals 2, 1, 2 and the word Low. *)
Definition index_alerts : list Edr.EdrDataType :=
  [ Edr.mkAlert "High" None "2" "Open" "h1"; Edr.mkAlert "High" None "1" "Open" "h1";
    Edr.mkAlert "High" None "2" "Open" "h2"; Edr.mkAlert "High" None "Low" "Open" "h2" ].

(** A host that answers over HTTP: a response is its [ok] flag and its
    body. The first source is served; the second is answered with status
    404 and an error page, in which the parser finds no row and reports
    that it found no delimiter. *)
Definition http_fetch (url : string) : Dashboard.result string (bool * string) :=
  if String.eqb url "/public/edr_data.csv"
  then Dashboard.Ok (true, "Severity,IOCType,AlertType,Status,Hostname")
  else Dashboard.Ok (false, "Not Found").

Definition http_ok (response : bool * string) : bool := fst response.

Definition http_text (response : bool * string) : Dashboard.result string string :=
  Dashboard.Ok (snd response).

Definition http_errors (text : string) : list string :=
  if String.eqb text "Not Found" then [ "UndetectableDelimiter" ] else [].

(* ===================================================================== *)
(** ** Sample runs *)
(* ===================================================================== *)

Example edr_three :
  let k := Edr.calculateEdrKpis
    [ Edr.mkAlert "Critical" None "Malware" "Open" "h1";
      Edr.mkAlert "Critical" None "Malware" "Open" "h2";
      Edr.mkAlert "Low" None "Malware" "Open" "h1" ] in
  Edr.criticalRate k = Num (200 # 3)
  ∧ toFixed 1 (Edr.criticalRate k) = "66.7"
  ∧ Edr.uniqueEndpoints k = Num 2
  ∧ map name (Edr.severityData k) = ["Critical"; "Low"].
Proof. vm_compute. auto. Qed.

(** Two CSV files with a header row and no record: the load succeeds and
    three of the cards read "NaN%". *)
Example header_only_page :
  Dashboard.render
    (snd (Dashboard.loadData string string header_only_fetch sample_text
            header_only_edr sample_parse_vuln IsoDate.getTime Dashboard.initialState))
  = Dashboard.Page
      {| Dashboard.criticalRateCard := "NaN%";
         Dashboard.totalAlertsLine := Num 0;
         Dashboard.iocDetectionRateCard := "NaN%";
         Dashboard.suspiciousConnectionRateCard := "0.0%";
         Dashboard.edrSeverityLabels := [];
         Dashboard.criticalVulnerabilityRateCard := "0.0%";
         Dashboard.remediationRateCard := "NaN%";
         Dashboard.avgRemediationTimeCard := "0 j";
         Dashboard.patchesInTimeRateCard := "0.0%";
         Dashboard.vulnSeverityLabels := [] |}.
Proof. reflexivity. Qed.

Example iso_epoch : IsoDate.getTime "1970-01-01" = Num 0.
Proof. reflexivity. Qed.

Example iso_2024 : IsoDate.getTime "2024-03-01" = Num 1709251200000.
Proof. reflexivity. Qed.

Example iso_garbage : IsoDate.getTime "pending" = NaN.
Proof. reflexivity. Qed.

(* ===================================================================== *)
(** ** Arithmetic of counts *)
(* ===================================================================== *)

Section CountArith.

Implicit Types c t n : nat.

Lemma Qeq_bool_inject_S n : Qeq_bool (inject_Z (Z.of_nat (S n))) 0 = false.
Proof.
  destruct (Qeq_bool _ _) eqn:E; [|done].
  apply Qeq_bool_eq in E. unfold Qeq in E. simpl in E. lia.
Qed.

Lemma truthy_of_nat n : truthy (of_nat n) = negb (n =? 0)%nat.
Proof.
  destruct n as [|n]; [done|].
  unfold truthy, of_nat. by rewrite Qeq_bool_inject_S.
Qed.

Lemma js_lt_0_of_nat n : js_lt (Num 0) (of_nat n) = negb (n =? 0)%nat.
Proof.
  destruct n as [|n]; [done|].
  unfold js_lt, of_nat. simpl negb at 2.
  destruct (Qle_bool _ _) eqn:E; [|done].
  apply Qle_bool_imp_le in E. unfold Qle in E. simpl in E. lia.
Qed.

(** [(c / t) * 100] is [100 * c / t] as soon as [t] is not 0 ... *)
Lemma ratio_percent c t :
  t ≠ O → js_mul (js_div (of_nat c) (of_nat t)) (Num 100) = percent c t.
Proof.
  destruct t as [|t]; [done|]. intros _.
  unfold js_div, of_nat. rewrite Qeq_bool_inject_S.
  unfold js_mul, percent. f_equal. apply Qred_complete.
  rewrite Qred_correct. field.
  intros E. apply Qeq_eq_bool in E. by rewrite Qeq_bool_inject_S in E.
Qed.

(** ... and NaN when both counts are 0. *)
Lemma ratio_zero_zero : js_mul (js_div (of_nat 0) (of_nat 0)) (Num 100) = NaN.
Proof. reflexivity. Qed.

Lemma percent_full t : t ≠ O → percent t t = Num 100.
Proof.
  destruct t as [|t]; [done|]. intros _.
  unfold percent. change (Num 100) with (Num (Qred 100)). f_equal.
  apply Qred_complete. field.
  intros E. apply Qeq_eq_bool in E. by rewrite Qeq_bool_inject_S in E.
Qed.

Lemma percent_bounds c t :
  (c ≤ t)%nat → t ≠ O →
  js_le (Num 0) (percent c t) = true ∧ js_le (percent c t) (Num 100) = true.
Proof.
  intros Hct Ht. unfold percent, js_le.
  assert (0 < inject_Z (Z.of_nat t))%Q as Hpos.
  { unfold Qlt. simpl. lia. }
  assert (0 <= inject_Z (Z.of_nat c) <= inject_Z (Z.of_nat t))%Q as [Hc0 Hc1].
  { unfold Qle. simpl. lia. }
  split; apply Qle_bool_iff; rewrite Qred_correct.
  - apply Qle_shift_div_l; [done|]. nra.
  - apply Qle_shift_div_r; [done|]. nra.
Qed.

(** The percentage does not go down when one more unit is counted both
    in the numerator and in the denominator. *)
Lemma percent_succ_mono c t :
  (c ≤ t)%nat → t ≠ O → js_le (percent c t) (percent (S c) (S t)) = true.
Proof.
  intros Hct Ht. unfold percent, js_le.
  apply Qle_bool_iff. rewrite !Qred_correct.
  assert (0 < inject_Z (Z.of_nat t))%Q as Hpos by (unfold Qlt; simpl; lia).
  assert (0 < inject_Z (Z.of_nat (S t)))%Q as Hpos' by (unfold Qlt; simpl; lia).
  assert (inject_Z (Z.of_nat (S t)) == inject_Z (Z.of_nat t) + 1)%Q as Et.
  { rewrite Nat2Z.inj_succ. unfold Z.succ. rewrite inject_Z_plus. reflexivity. }
  assert (inject_Z (Z.of_nat (S c)) == inject_Z (Z.of_nat c) + 1)%Q as Ec.
  { rewrite Nat2Z.inj_succ. unfold Z.succ. rewrite inject_Z_plus. reflexivity. }
  assert (0 <= inject_Z (Z.of_nat c) <= inject_Z (Z.of_nat t))%Q as [Hc0 Hc1].
  { unfold Qle. simpl. lia. }
  apply Qle_shift_div_l; [done|].
  setoid_replace (100 * inject_Z (Z.of_nat c) / inject_Z (Z.of_nat t) * inject_Z (Z.of_nat (S t)))%Q
    with (100 * inject_Z (Z.of_nat c) * inject_Z (Z.of_nat (S t)) / inject_Z (Z.of_nat t))%Q
    using relation Qeq by (field; lra).
  apply Qle_shift_div_r; [done|].
  rewrite Et, Ec. nra.
Qed.

End CountArith.

(* ===================================================================== *)
(** ** Filters, sets and counter tables *)
(* ===================================================================== *)

Section Helpers.

Context {A : Type}.

(** A JavaScript [filter] with a boolean callback keeps the elements
    that satisfy the property the callback decides. *)
Lemma filter_bool_prop (f : A → bool) (P : A → Prop) `{!∀ x, Decision (P x)}
    (l : list A) :
  (∀ x, f x = true ↔ P x) → List.filter f l = filter P l.
Proof.
  intros Hf. induction l as [|x l IH]; [done|].
  simpl. rewrite filter_cons, IH.
  destruct (f x) eqn:E; case_decide as HP; try done.
  - apply Hf in E. done.
  - apply Hf in HP. congruence.
Qed.

Lemma fold_left_map_acc {B C : Type} (g : C → B → C) (h : A → B) (l : list A) (c : C) :
  fold_left (λ s x, g s (h x)) l c = fold_left g (map h l) c.
Proof. revert c. induction l as [|x l IH]; intros c; simpl; [done|]. apply IH. Qed.

End Helpers.

Section SetSpread.

Lemma existsb_eqb_elem (x : string) (s : list string) :
  existsb (String.eqb x) s = true ↔ x ∈ s.
Proof.
  rewrite existsb_exists. split.
  - intros (y & Hin & Heq). apply String.eqb_eq in Heq. subst y.
    by apply list_elem_of_In.
  - intros Hin. exists x. split; [by apply list_elem_of_In|apply String.eqb_refl].
Qed.

Lemma Set_add_spec (s : list string) (x : string) :
  NoDup s →
  NoDup (Set_add s x) ∧ ∀ y, y ∈ Set_add s x ↔ y ∈ s ∨ y = x.
Proof.
  intros Hs. unfold Set_add.
  destruct (existsb (String.eqb x) s) eqn:E.
  - apply existsb_eqb_elem in E. split; [done|]. intros y. split; [tauto|]. intros [Hy|Hy]; [done|by subst y].
  - assert (x ∉ s) as Hx.
    { intros Hin. apply existsb_eqb_elem in Hin. congruence. }
    split.
    + apply NoDup_app. split_and!; [done| |apply NoDup_singleton].
      intros y Hy Hy'. apply list_elem_of_singleton in Hy'. by subst.
    + intros y. rewrite elem_of_app, list_elem_of_singleton. done.
Qed.

Lemma Set_fold_spec (xs s : list string) :
  NoDup s →
  NoDup (fold_left Set_add xs s)
  ∧ ∀ y, y ∈ fold_left Set_add xs s ↔ y ∈ s ∨ y ∈ xs.
Proof.
  revert s. induction xs as [|x xs IH]; intros s Hs; simpl.
  - split; [done|]. intros y. rewrite elem_of_nil. tauto.
  - destruct (Set_add_spec s x Hs) as [Hnd Hel].
    destruct (IH _ Hnd) as [Hnd' Hel']. split; [done|].
    intros y. rewrite Hel', Hel, elem_of_cons. tauto.
Qed.

Lemma NoDup_Set_spread (xs : list string) : NoDup (Set_spread xs).
Proof. apply Set_fold_spec, NoDup_nil_2. Qed.

Lemma elem_of_Set_spread (xs : list string) (y : string) :
  y ∈ Set_spread xs ↔ y ∈ xs.
Proof.
  unfold Set_spread.
  destruct (Set_fold_spec xs [] (NoDup_nil_2)) as [_ ->].
  rewrite elem_of_nil. tauto.
Qed.

(** The spread of a [Set] has as many elements as there are distinct
    values in the list it was built from. *)
Lemma length_Set_spread (xs : list string) :
  length (Set_spread xs) = size (list_to_set xs : gset string).
Proof.
  rewrite <- (size_list_to_set (C := gset string) _ (NoDup_Set_spread xs)).
  f_equal. apply set_eq. intros y.
  rewrite !elem_of_list_to_set. apply elem_of_Set_spread.
Qed.

End SetSpread.

Section CounterTables.

Lemma js_add_of_nat (a b : nat) : js_add (of_nat a) (of_nat b) = of_nat (a + b).
Proof.
  unfold js_add, of_nat. f_equal.
  rewrite Nat2Z.inj_add, <- (inject_Z_Qred (Z.of_nat a + Z.of_nat b)).
  apply Qred_complete. by rewrite inject_Z_plus.
Qed.

Lemma co_own_set (acc : CountObject) (k k' : string) (v : jsval) :
  co_own (co_set acc k v) k' = if String.eqb k k' then Some v else co_own acc k'.
Proof.
  induction acc as [|[k0 w] rest IH]; simpl; [done|].
  destruct (String.eqb_spec k0 k) as [->|Hne]; simpl.
  - by destruct (String.eqb k k').
  - rewrite IH. destruct (String.eqb_spec k0 k') as [->|Hne']; [|done].
    by rewrite (proj2 (String.eqb_neq k k')).
Qed.

Lemma co_set_keys (acc : CountObject) (k : string) (v : jsval) :
  map fst (co_set acc k v)
  = if decide (k ∈ map fst acc) then map fst acc else (map fst acc ++ [k])%list.
Proof.
  induction acc as [|[k' w] rest IH]; simpl.
  - done.
  - destruct (String.eqb_spec k' k) as [->|Hne]; simpl.
    + rewrite decide_True; [done|apply elem_of_cons; by left].
    + rewrite IH. case_decide as H.
      * rewrite decide_True; [done|apply elem_of_cons; by right].
      * rewrite decide_False; [done|].
        intros [?|?]%elem_of_cons; [congruence|done].
Qed.

Lemma co_bump_keys (acc : CountObject) (k : string) :
  map fst (co_bump acc k)
  = if String.eqb k "__proto__" then map fst acc else Set_add (map fst acc) k.
Proof.
  unfold co_bump, co_assign. destruct (String.eqb k "__proto__"); [done|].
  rewrite co_set_keys. unfold Set_add.
  destruct (existsb (String.eqb k) (map fst acc)) eqn:E.
  - apply existsb_eqb_elem in E. by rewrite decide_True.
  - rewrite decide_False; [done|]. intros Hin.
    apply existsb_eqb_elem in Hin. congruence.
Qed.

Lemma count_by_snoc {A : Type} (f : A → string) (data : list A) (x : A) :
  count_by f (data ++ [x]) = co_bump (count_by f data) (f x).
Proof. unfold count_by. by rewrite fold_left_app. Qed.

Lemma Set_spread_snoc (xs : list string) (x : string) :
  Set_spread (xs ++ [x]) = Set_add (Set_spread xs) x.
Proof. unfold Set_spread. by rewrite fold_left_app. Qed.

(** The own property names of a table: the distinct labels other than
    [__proto__], in the order the records first show them. *)
Lemma count_by_own_keys {A : Type} (f : A → string) (data : list A) :
  map fst (count_by f data)
  = Set_spread (List.filter (λ k, negb (String.eqb k "__proto__")) (map f data)).
Proof.
  induction data as [|x data IH] using rev_ind; [done|].
  rewrite count_by_snoc, co_bump_keys, IH, map_app, List.filter_app. simpl.
  destruct (String.eqb (f x) "__proto__"); simpl.
  - by rewrite app_nil_r.
  - by rewrite Set_spread_snoc.
Qed.

Lemma count_by_NoDup {A : Type} (f : A → string) (data : list A) :
  NoDup (map fst (count_by f data)).
Proof. rewrite count_by_own_keys. apply NoDup_Set_spread. Qed.

Lemma existsb_functions_iff (key : string) :
  existsb (String.eqb key) Object_prototype_functions = true
  ↔ key ∈ Object_prototype_functions.
Proof. apply existsb_eqb_elem. Qed.

Lemma label_count_snoc {A : Type} (f : A → string) (data : list A) (x : A) (key : string) :
  label_count f (data ++ [x]) key
  = (label_count f data key + if decide (f x = key) then 1 else 0)%nat.
Proof.
  unfold label_count. rewrite filter_app, length_app, filter_cons, filter_nil.
  by case_decide.
Qed.

(** What each own property of a table holds. *)
Lemma count_by_own {A : Type} (f : A → string) (data : list A) (key : string) :
  co_own (count_by f data) key = counted key (label_count f data key).
Proof.
  induction data as [|x data IH] using rev_ind; [done|].
  rewrite count_by_snoc, label_count_snoc.
  unfold co_bump, co_assign.
  destruct (String.eqb_spec (f x) "__proto__") as [Hp|Hp].
  - rewrite IH. case_decide as Hk; [|by rewrite Nat.add_0_r].
    unfold counted. subst key. rewrite Hp.
    rewrite (decide_True (P := "__proto__" = "__proto__")) by done.
    by repeat case_decide.
  - rewrite co_own_set.
    destruct (String.eqb_spec (f x) key) as [Hk|Hk];
      [|by rewrite decide_False, Nat.add_0_r by done].
    rewrite decide_True by done. subst key.
    unfold co_get. rewrite IH. unfold counted.
    rewrite (proj2 (String.eqb_neq _ _) Hp).
    destruct (decide (label_count f data (f x) = O)) as [Hn|Hn].
    + rewrite Hn. simpl plus.
      destruct (existsb (String.eqb (f x)) Object_prototype_functions) eqn:E.
      * apply existsb_functions_iff in E. by repeat case_decide.
      * assert (f x ∉ Object_prototype_functions) as Hin.
        { intros Hin. apply existsb_functions_iff in Hin. congruence. }
        by repeat case_decide.
    + rewrite (decide_False (P := f x = "__proto__")) by done.
      rewrite (decide_False (P := (label_count f data (f x) + 1)%nat = O)) by lia.
      rewrite (decide_False (P := f x = "__proto__")) by done.
      case_decide as Hfn.
      * simpl. by rewrite Nat.add_1_r.
      * cbn [truthy_val]. rewrite truthy_of_nat, (proj2 (Nat.eqb_neq _ _) Hn).
        cbn [negb plus1]. change (Num 1) with (of_nat 1). by rewrite js_add_of_nat.
Qed.

(** Reading a table at one of its own names gives the own property. *)
Lemma co_get_own (acc : CountObject) (key : string) (v : jsval) :
  co_own acc key = Some v → co_get acc key = v.
Proof. unfold co_get. by intros ->. Qed.

Lemma insert_key_perm (i : N) (key : string) (l : list (N * string)) :
  insert_key i key l ≡ₚ (i, key) :: l.
Proof.
  induction l as [|[j k] rest IH]; simpl; [done|].
  destruct (i <=? j)%N; [done|].
  rewrite IH. apply perm_swap.
Qed.

(** [Object.keys] lists every own name once. *)
Lemma Object_keys_perm (acc : CountObject) : Object_keys acc ≡ₚ map fst acc.
Proof.
  unfold Object_keys. generalize (map fst acc). intros keys.
  induction keys as [|key keys IH]; simpl; [done|].
  unfold index_keys, string_keys in *. simpl.
  destruct (array_index key) as [i|]; simpl.
  - rewrite insert_key_perm. simpl. by rewrite IH.
  - rewrite <- Permutation_middle. by rewrite IH.
Qed.

Lemma index_keys_none (keys : list string) :
  (∀ key, key ∈ keys → array_index key = None) → index_keys keys = [].
Proof.
  induction keys as [|key keys IH]; intros Hkeys; [done|].
  unfold index_keys in *. simpl. rewrite (Hkeys key) by (by left).
  apply IH. intros k Hk. apply Hkeys. by right.
Qed.

Lemma string_keys_all (keys : list string) :
  (∀ key, key ∈ keys → array_index key = None) → string_keys keys = keys.
Proof.
  induction keys as [|key keys IH]; intros Hkeys; [done|].
  unfold string_keys in *. simpl. rewrite (Hkeys key) by (by left).
  f_equal. apply IH. intros k Hk. apply Hkeys. by right.
Qed.

(** Without array indices among the names, [Object.keys] lists the own
    names in the order of creation. *)
Lemma Object_keys_no_index (acc : CountObject) :
  (∀ key, key ∈ map fst acc → array_index key = None) →
  Object_keys acc = map fst acc.
Proof.
  intros Hkeys. unfold Object_keys.
  by rewrite index_keys_none, string_keys_all.
Qed.

Lemma label_in_own_keys {A : Type} (f : A → string) (data : list A) (key : string) :
  key ∈ map fst (count_by f data)
  ↔ key ≠ "__proto__" ∧ (1 ≤ label_count f data key)%nat.
Proof.
  rewrite count_by_own_keys, elem_of_Set_spread, list_elem_of_In, filter_In.
  rewrite negb_true_iff, String.eqb_neq, in_map_iff. unfold label_count. split.
  - intros [(x & Hx & Hin) Hp]. split; [done|].
    assert (x ∈ filter (λ x, f x = key) data) as Hf.
    { apply list_elem_of_filter. split; [done|by apply list_elem_of_In]. }
    destruct (filter _ data); [by apply elem_of_nil in Hf|simpl; lia].
  - intros [Hp Hn]. split; [|done].
    destruct (filter (λ x, f x = key) data) as [|x l] eqn:Hf; [simpl in Hn; lia|].
    assert (x ∈ filter (λ x, f x = key) data) as Hx by (rewrite Hf; by left).
    apply list_elem_of_filter in Hx as [Hx Hin]. exists x.
    split; [done|by apply list_elem_of_In].
Qed.

End CounterTables.

(* ===================================================================== *)
(** ** Chart series *)
(* ===================================================================== *)

Section Series.

Lemma Qinject_nat_nonzero (t : nat) : t ≠ O → ¬ (inject_Z (Z.of_nat t) == 0)%Q.
Proof.
  destruct t as [|t]; [done|]. intros _ E.
  apply Qeq_eq_bool in E. by rewrite Qeq_bool_inject_S in E.
Qed.

Lemma fold_add_percent (vs : list nat) (t : nat) (q0 : Q) :
  t ≠ O → Qred q0 = q0 →
  fold_left js_add (map (λ v, percent v t) vs) (Num q0)
  = Num (Qred (q0 + 100 * inject_Z (Z.of_nat (sum_list vs)) / inject_Z (Z.of_nat t))).
Proof.
  intros Ht. pose proof (Qinject_nat_nonzero t Ht) as Hne.
  revert q0. induction vs as [|v vs IH]; intros q0 Hq0; simpl.
  - rewrite <- Hq0 at 1. f_equal. apply Qred_complete. field. done.
  - rewrite IH by apply Qred_complete, Qred_correct. f_equal. apply Qred_complete.
    rewrite !Qred_correct, Nat2Z.inj_add, inject_Z_plus. field. done.
Qed.

Lemma label_count_pos {A : Type} (f : A → string) (data : list A) (key : string) :
  (1 ≤ label_count f data key)%nat ↔ ∃ x, x ∈ data ∧ f x = key.
Proof.
  unfold label_count. split.
  - intros Hn.
    destruct (filter (λ x, f x = key) data) as [|x l] eqn:Hf; [simpl in Hn; lia|].
    assert (x ∈ filter (λ x, f x = key) data) as Hx by (rewrite Hf; by left).
    apply list_elem_of_filter in Hx as [Hx Hin]. by exists x.
  - intros (x & Hin & Hx).
    assert (x ∈ filter (λ x, f x = key) data) as Hf by (by apply list_elem_of_filter).
    destruct (filter _ data); [by apply elem_of_nil in Hf|simpl; lia].
Qed.

Lemma filter_ext_elem {A : Type} (P Q : A → Prop)
    `{!∀ x, Decision (P x)} `{!∀ x, Decision (Q x)} (l : list A) :
  (∀ x, x ∈ l → P x ↔ Q x) → filter P l = filter Q l.
Proof.
  induction l as [|x l IH]; intros Hl; [done|].
  rewrite !filter_cons, IH by (intros y Hy; apply Hl; by right).
  destruct (Hl x) as [H1 H2]; [by left|].
  by repeat case_decide; try tauto.
Qed.

Lemma sum_list_label_counts {A : Type} (f : A → string) (data : list A)
    (keys : list string) :
  NoDup keys →
  sum_list (map (label_count f data) keys) = length (filter (λ x, f x ∈ keys) data).
Proof.
  induction keys as [|k keys IH]; intros Hnd.
  - simpl. induction data as [|x data IHd]; [done|].
    rewrite filter_cons, decide_False; [done|]. apply not_elem_of_nil.
  - apply NoDup_cons in Hnd as [Hk Hnd]. simpl. rewrite (IH Hnd). clear IH.
    unfold label_count. induction data as [|x data IHd]; [done|].
    rewrite !filter_cons.
    destruct (decide (f x = k)) as [Hx|Hx], (decide (f x ∈ keys)) as [Hin|Hin],
      (decide (f x ∈ k :: keys)) as [Hin'|Hin']; simpl; try lia; exfalso;
      first [ apply Hin'; apply elem_of_cons; tauto
            | apply Hk; by rewrite <- Hx
            | apply elem_of_cons in Hin' as [?|?]; done ].
Qed.

Lemma filter_all {A : Type} (P : A → Prop) `{!∀ x, Decision (P x)} (l : list A) :
  (∀ x, x ∈ l → P x) → filter P l = l.
Proof.
  induction l as [|x l IH]; intros Hl; [done|].
  rewrite filter_cons, decide_True by (apply Hl; by left).
  f_equal. apply IH. intros y Hy. apply Hl. by right.
Qed.

Lemma sum_list_perm (l l' : list nat) : l ≡ₚ l' → sum_list l = sum_list l'.
Proof.
  induction 1 as [|x l l' _ IH|x y l|l l' l'' _ IH1 _ IH2]; simpl; lia.
Qed.

Lemma series_key_facts {A : Type} (f : A → string) (data : list A) (key : string) :
  key ∈ Object_keys (count_by f data) →
  key ≠ "__proto__" ∧ (1 ≤ label_count f data key)%nat
  ∧ co_get (count_by f data) key
    = (if decide (key ∈ Object_prototype_functions)
       then JMemberText key (label_count f data key)
       else JNum (of_nat (label_count f data key))).
Proof.
  rewrite Object_keys_perm. intros Hkey.
  apply label_in_own_keys in Hkey as [Hp Hn]. split_and!; [done..|].
  apply co_get_own. rewrite count_by_own. unfold counted.
  rewrite decide_False by lia. by repeat case_decide.
Qed.

Lemma percentages_of_series {A : Type} (f : A → string) (data : list A) (t : nat) :
  t ≠ O → (∀ x, x ∈ data → f x ∉ Object_prototype_functions) →
  map percentage (chart_series (count_by f data) (of_nat t))
  = map (λ v, percent v t) (map (label_count f data) (Object_keys (count_by f data))).
Proof.
  intros Ht Hfn. unfold chart_series. rewrite !map_map. simpl.
  apply map_ext_in. intros key Hkey. apply list_elem_of_In in Hkey.
  destruct (series_key_facts f data key Hkey) as (Hp & Hn & ->).
  apply label_count_pos in Hn as (x & Hin & <-).
  rewrite decide_False by (by apply Hfn). simpl. by apply ratio_percent.
Qed.

(** The percentages of a series add up to the share of the records whose
    label is not [__proto__], when no label names an inherited function. *)
Lemma percentage_sum_counted {A : Type} (f : A → string) (data : list A) (t : nat) :
  t ≠ O → (∀ x, x ∈ data → f x ∉ Object_prototype_functions) →
  percentage_sum (chart_series (count_by f data) (of_nat t))
  = percent (length (filter (λ x, f x ≠ "__proto__") data)) t.
Proof.
  intros Ht Hfn. unfold percentage_sum.
  rewrite (fold_left_map_acc js_add percentage).
  rewrite percentages_of_series by done.
  rewrite fold_add_percent by done.
  rewrite (sum_list_perm _ _ (Permutation_map (label_count f data)
             (Object_keys_perm (count_by f data)))).
  rewrite sum_list_label_counts by apply count_by_NoDup.
  rewrite (filter_ext_elem (λ x, f x ∈ map fst (count_by f data))
             (λ x, f x ≠ "__proto__") data).
  - unfold percent. f_equal. apply Qred_complete. field.
    by apply Qinject_nat_nonzero.
  - intros x Hx. rewrite label_in_own_keys, label_count_pos. split; [tauto|].
    intros Hp. split; [done|]. by exists x.
Qed.

(** Grouping a non-empty list by a field whose labels are all plain: the
    percentages of the groups add up to 100. *)
Lemma breakdown_sum_100 {A : Type} (f : A → string) (data : list A) :
  data ≠ [] → (∀ x, x ∈ data → plainLabel (f x)) →
  percentage_sum (chart_series (count_by f data) (of_nat (length data))) = Num 100.
Proof.
  intros Hne Hplain.
  assert (length data ≠ O) as Hlen by (by destruct data).
  rewrite percentage_sum_counted; [|done|intros x Hx; by apply Hplain].
  rewrite (filter_all (λ x, f x ≠ "__proto__") data).
  - by apply percent_full.
  - intros x Hx. by apply Hplain.
Qed.

End Series.

(* ===================================================================== *)
(** ** Properties of the alert aggregator *)
(* ===================================================================== *)

Section EdrProperties.

Import Edr.

Lemma criticalRate_nonempty (data : list EdrDataType) :
  data ≠ [] →
  criticalRate (calculateEdrKpis data)
  = percent (length (filter (λ a, Severity a = "Critical") data)) (length data).
Proof.
  intros Hne. assert (length data ≠ O) as Hlen by (by destruct data).
  unfold calculateEdrKpis. cbn [criticalRate].
  rewrite ratio_percent by done. do 2 f_equal.
  apply filter_bool_prop. intros a. apply String.eqb_eq.
Qed.

Lemma isNetworkConnection_iff (a : EdrDataType) :
  isNetworkConnection a = true ↔ AlertType a = "Network Connection".
Proof. apply String.eqb_eq. Qed.

Lemma isSuspiciousConnection_iff (a : EdrDataType) :
  isSuspiciousConnection a = true
  ↔ AlertType a = "Network Connection"
    ∧ (Severity a = "Critical" ∨ Severity a = "High").
Proof.
  unfold isSuspiciousConnection.
  rewrite andb_true_iff, orb_true_iff, !String.eqb_eq. done.
Qed.

End EdrProperties.

(** C6. For every alert list, [suspiciousConnectionRate] is 100 times the
    number of records of alert type "Network Connection" whose severity is
    "Critical" or "High", divided by the number of records of alert type
    "Network Connection", and 0 when there is no such record. *)
Theorem suspiciousConnectionRate_formula (data : list Edr.EdrDataType) :
  let network := filter (λ a, Edr.AlertType a = "Network Connection") data in
  let suspicious :=
    filter (λ a, Edr.AlertType a = "Network Connection"
                 ∧ (Edr.Severity a = "Critical" ∨ Edr.Severity a = "High")) data in
  Edr.suspiciousConnectionRate (Edr.calculateEdrKpis data)
  = if decide (length network = O) then Num 0
    else percent (length suspicious) (length network).
Proof.
  intros network suspicious.
  unfold Edr.calculateEdrKpis. cbn [Edr.suspiciousConnectionRate].
  rewrite (filter_bool_prop Edr.isNetworkConnection _ data isNetworkConnection_iff).
  rewrite (filter_bool_prop Edr.isSuspiciousConnection _ data isSuspiciousConnection_iff).
  fold network suspicious. rewrite truthy_of_nat.
  case_decide as Hn.
  - by rewrite Hn.
  - rewrite (proj2 (Nat.eqb_neq _ _) Hn). simpl. by apply ratio_percent.
Qed.

(** C1, on the code. On the empty list both totals are 0 and the four
    guarded rates (suspicious connections, average remediation time,
    critical-asset exposure, patches in time) are 0, but the three
    unguarded ones, [criticalRate], [iocDetectionRate] and
    [remediationRate], are [0 / 0 * 100], that is NaN, and the cards show
    "NaN%". *)
Theorem summarize_empty (Date_getTime : string → number) :
  let e := Edr.calculateEdrKpis [] in
  let v := Vuln.calculateVulnKpis Date_getTime [] in
  (Edr.totalAlerts e = Num 0 ∧ Vuln.totalVulnerabilities v = Num 0)
  ∧ (Edr.suspiciousConnectionRate e = Num 0
     ∧ Vuln.avgRemediationTime v = Num 0
     ∧ Vuln.criticalVulnerabilityRate v = Num 0
     ∧ Vuln.patchesInTimeRate v = Num 0)
  ∧ (Edr.criticalRate e = NaN
     ∧ Edr.iocDetectionRate e = NaN
     ∧ Vuln.remediationRate v = NaN)
  ∧ toFixed 1 (Edr.criticalRate e) +:+ "%" = "NaN%".
Proof. repeat split. Qed.

(** C7, on the code. On the empty list [criticalRate] is NaN, not 0. On
    the three records of severities Critical, Critical, Low the total is
    3, [criticalRate] is 200/3, shown as 66.7, and the severity series is
    Critical with count 2 and 200/3 percent, Low with count 1 and 100/3
    percent, labelled "Critical: 66.7%" and "Low: 33.3%". *)
Theorem criticalRate_empty_and_example :
  Edr.criticalRate (Edr.calculateEdrKpis []) = NaN
  ∧ let k := Edr.calculateEdrKpis three_alerts in
    Edr.totalAlerts k = Num 3
    ∧ Edr.criticalRate k = Num (200 # 3)
    ∧ toFixed 1 (Edr.criticalRate k) = "66.7"
    ∧ Edr.severityData k
      = [ mkEntry "Critical" (Num 2) (Num (200 # 3)); mkEntry "Low" (Num 1) (Num (100 # 3)) ]
    ∧ map Dashboard.pieLabel (Edr.severityData k) = [ "Critical: 66.7%"; "Low: 33.3%" ].
Proof. vm_compute. repeat split. Qed.

(** C8. Appending a record of severity "Critical" to an alert list never
    lowers [criticalRate]: the new rate is not below the old one, and when
    the list was not empty the old rate is at most the new one. *)
Theorem criticalRate_monotone (data : list Edr.EdrDataType) (alert : Edr.EdrDataType) :
  Edr.Severity alert = "Critical" →
  let before := Edr.criticalRate (Edr.calculateEdrKpis data) in
  let after := Edr.criticalRate (Edr.calculateEdrKpis (data ++ [alert])) in
  js_lt after before = false ∧ (data ≠ [] → js_le before after = true).
Proof.
  intros Hcrit before after.
  destruct (decide (data = [])) as [->|Hne].
  { split; [|done]. subst before after. by destruct (Edr.criticalRate _). }
  assert (js_le before after = true) as Hle.
  { subst before after.
    rewrite !criticalRate_nonempty by (done || by destruct data).
    rewrite filter_app, !length_app, filter_cons, decide_True by done.
    simpl. rewrite !Nat.add_1_r.
    apply percent_succ_mono; [apply length_filter|by destruct data]. }
  split; [|done].
  destruct before as [b| | |], after as [a| | |]; simpl in *; try done.
  by rewrite Hle.
Qed.

Lemma criticalRate_monotone_witness :
  let before := Edr.criticalRate (Edr.calculateEdrKpis three_alerts) in
  let after :=
    Edr.criticalRate (Edr.calculateEdrKpis (three_alerts ++ [alert_of_severity "Critical"])) in
  js_lt after before = false ∧ js_le before after = true.
Proof.
  destruct (criticalRate_monotone three_alerts (alert_of_severity "Critical") eq_refl)
    as [Hlt Hle].
  split; [exact Hlt|]. apply Hle. discriminate.
Defined.

(** C3, as the aggregators behave. For a non-empty record list given to
    either aggregator, the percentages of each of its breakdowns
    (severity, alert type and status for alerts; severity, status and
    detection source for vulnerabilities) add up to 100, provided no label
    of the field the breakdown groups by is [__proto__] or the name of a
    function inherited from [Object.prototype]. *)
Theorem breakdown_percentages_sum (Date_getTime : string → number)
    (alerts : list Edr.EdrDataType) (vulns : list Vuln.VulnDataType) :
  (alerts ≠ [] →
   let k := Edr.calculateEdrKpis alerts in
   ((∀ a, a ∈ alerts → plainLabel (Edr.Severity a)) →
    percentage_sum (Edr.severityData k) = Num 100)
   ∧ ((∀ a, a ∈ alerts → plainLabel (Edr.AlertType a)) →
      percentage_sum (Edr.alertTypeData k) = Num 100)
   ∧ ((∀ a, a ∈ alerts → plainLabel (Edr.Status a)) →
      percentage_sum (Edr.statusData k) = Num 100))
  ∧ (vulns ≠ [] →
     let k := Vuln.calculateVulnKpis Date_getTime vulns in
     ((∀ v, v ∈ vulns → plainLabel (Vuln.Severity v)) →
      percentage_sum (Vuln.severityData k) = Num 100)
     ∧ ((∀ v, v ∈ vulns → plainLabel (Vuln.Status v)) →
        percentage_sum (Vuln.statusData k) = Num 100)
     ∧ ((∀ v, v ∈ vulns → plainLabel (Vuln.DetectionSource v)) →
        percentage_sum (Vuln.sourceData k) = Num 100)).
Proof.
  split; intros Hne k; subst k;
    unfold Edr.calculateEdrKpis, Vuln.calculateVulnKpis;
    cbn [Edr.severityData Edr.alertTypeData Edr.statusData
         Vuln.severityData Vuln.statusData Vuln.sourceData];
    split_and!; intros Hplain; by apply breakdown_sum_100.
Qed.

Lemma breakdown_percentages_sum_witness :
  let e := Edr.calculateEdrKpis three_alerts in
  let v := Vuln.calculateVulnKpis IsoDate.getTime
             [ vuln_resolved "2024-01-01" "2024-01-03" None ] in
  (percentage_sum (Edr.severityData e) = Num 100
   ∧ percentage_sum (Edr.alertTypeData e) = Num 100
   ∧ percentage_sum (Edr.statusData e) = Num 100)
  ∧ (percentage_sum (Vuln.severityData v) = Num 100
     ∧ percentage_sum (Vuln.statusData v) = Num 100
     ∧ percentage_sum (Vuln.sourceData v) = Num 100).
Proof.
  destruct (breakdown_percentages_sum IsoDate.getTime three_alerts
              [ vuln_resolved "2024-01-01" "2024-01-03" None ]) as [He Hv].
  destruct He as (He1 & He2 & He3); [discriminate|].
  destruct Hv as (Hv1 & Hv2 & Hv3); [discriminate|].
  split; split_and!;
    [apply He1|apply He2|apply He3|apply Hv1|apply Hv2|apply Hv3];
    intros x Hx; repeat (apply elem_of_cons in Hx as [->|Hx]);
    try (by apply elem_of_nil in Hx);
    (split; [discriminate|]; apply (bool_decide_unpack _); vm_compute; exact I).
Defined.

(** C3, the list the claim fails on. Of two alerts of severities
    [__proto__] and Low only the second is counted: the severity series
    has the one entry Low, at 50 percent. An alert of severity [toString]
    gives an entry whose percentage is NaN. *)
Lemma breakdown_percentages_counterexample :
  let k := Edr.calculateEdrKpis proto_alerts in
  proto_alerts ≠ []
  ∧ Edr.severityData k = [ mkEntry "Low" (Num 1) (Num 50) ]
  ∧ percentage_sum (Edr.severityData k) ≠ Num 100
  ∧ percentage_sum (Edr.severityData (Edr.calculateEdrKpis [alert_of_severity "toString"]))
    = NaN.
Proof. vm_compute. split_and!; done. Qed.

(* ===================================================================== *)
(** ** Properties of the vulnerability aggregator *)
(* ===================================================================== *)

Section CriticalAssets.

Import Vuln.

Lemma isCriticalAsset_iff (v : VulnDataType) :
  isCriticalAsset v = true ↔ IsCritical v = "Oui".
Proof. apply String.eqb_eq. Qed.

Lemma isUnpatchableCritical_iff (v : VulnDataType) :
  isUnpatchableCritical v = true ↔ IsCritical v = "Oui" ∧ IsPatchable v = "Non".
Proof.
  unfold isUnpatchableCritical. by rewrite andb_true_iff, !String.eqb_eq.
Qed.

Lemma elem_of_distinctCriticalAssets (data : list VulnDataType) (a : string) :
  a ∈ distinctCriticalAssets data
  ↔ ∃ v, v ∈ data ∧ IsCritical v = "Oui" ∧ AssetID v = a.
Proof.
  unfold distinctCriticalAssets.
  rewrite elem_of_list_to_set, list_elem_of_In, in_map_iff.
  split.
  - intros (v & <- & Hin). apply list_elem_of_In, list_elem_of_filter in Hin.
    exists v. tauto.
  - intros (v & Hin & Hc & <-). exists v. split; [done|].
    apply list_elem_of_In, list_elem_of_filter. done.
Qed.

Lemma elem_of_distinctUnpatchableCriticalAssets (data : list VulnDataType) (a : string) :
  a ∈ distinctUnpatchableCriticalAssets data
  ↔ ∃ v, v ∈ data ∧ IsCritical v = "Oui" ∧ IsPatchable v = "Non" ∧ AssetID v = a.
Proof.
  unfold distinctUnpatchableCriticalAssets.
  rewrite elem_of_list_to_set, list_elem_of_In, in_map_iff.
  split.
  - intros (v & <- & Hin). apply list_elem_of_In, list_elem_of_filter in Hin.
    exists v. tauto.
  - intros (v & Hin & Hc & Hp & <-). exists v. split; [done|].
    apply list_elem_of_In, list_elem_of_filter. done.
Qed.

Lemma unpatchable_subseteq_critical (data : list VulnDataType) :
  distinctUnpatchableCriticalAssets data ⊆ distinctCriticalAssets data.
Proof.
  intros a. rewrite elem_of_distinctUnpatchableCriticalAssets,
    elem_of_distinctCriticalAssets.
  intros (v & ? & ? & ? & ?). by exists v.
Qed.

Lemma criticalVulnerabilityRate_sizes (Date_getTime : string → number)
    (data : list VulnDataType) :
  criticalVulnerabilityRate (calculateVulnKpis Date_getTime data)
  = if decide (size (distinctCriticalAssets data) = O) then Num 0
    else percent (size (distinctUnpatchableCriticalAssets data))
                 (size (distinctCriticalAssets data)).
Proof.
  unfold calculateVulnKpis. cbn [criticalVulnerabilityRate].
  rewrite !length_Set_spread.
  rewrite (filter_bool_prop isCriticalAsset _ data isCriticalAsset_iff).
  rewrite (filter_bool_prop isUnpatchableCritical _ data isUnpatchableCritical_iff).
  fold (distinctCriticalAssets data) (distinctUnpatchableCriticalAssets data).
  rewrite js_lt_0_of_nat. case_decide as Hn.
  - by rewrite Hn.
  - rewrite (proj2 (Nat.eqb_neq _ _) Hn). simpl. by apply ratio_percent.
Qed.

End CriticalAssets.

(** C4. [criticalVulnerabilityRate], the critical-asset exposure rate, is
    100 times the number of distinct asset identifiers among the records
    that are critical and not patchable, divided by the number of distinct
    asset identifiers among the critical records, and 0 when there is no
    critical asset. In particular one asset with two records, one
    critical and unpatchable and one not critical, has rate 100. *)
Theorem criticalVulnerabilityRate_formula (Date_getTime : string → number) :
  (∀ data : list Vuln.VulnDataType,
     Vuln.criticalVulnerabilityRate (Vuln.calculateVulnKpis Date_getTime data)
     = if decide (size (distinctCriticalAssets data) = O) then Num 0
       else percent (size (distinctUnpatchableCriticalAssets data))
                    (size (distinctCriticalAssets data)))
  ∧ (∀ r1 r2 : Vuln.VulnDataType,
       Vuln.AssetID r1 = Vuln.AssetID r2 →
       Vuln.IsCritical r1 = "Oui" → Vuln.IsPatchable r1 = "Non" →
       Vuln.IsCritical r2 ≠ "Oui" →
       Vuln.criticalVulnerabilityRate (Vuln.calculateVulnKpis Date_getTime [r1; r2])
       = Num 100
       ∧ Vuln.criticalVulnerabilityRate (Vuln.calculateVulnKpis Date_getTime [r2; r1])
         = Num 100).
Proof.
  split; [apply criticalVulnerabilityRate_sizes|].
  intros r1 r2 Hid Hc1 Hp1 Hc2.
  apply String.eqb_eq in Hc1, Hp1. apply String.eqb_neq in Hc2.
  unfold Vuln.calculateVulnKpis. cbn [Vuln.criticalVulnerabilityRate].
  unfold Vuln.isCriticalAsset, Vuln.isUnpatchableCritical. simpl.
  rewrite Hc1, Hp1, Hc2. done.
Qed.

Lemma criticalVulnerabilityRate_formula_witness :
  let r1 := Vuln.mkVuln "High" "Open" "Scanner" (Some "2024-01-01") None
                        "Oui" "Non" "asset-7" None in
  let r2 := Vuln.mkVuln "Low" "Open" "Audit" (Some "2024-02-01") None
                        "Non" "Oui" "asset-7" None in
  Vuln.criticalVulnerabilityRate (Vuln.calculateVulnKpis IsoDate.getTime [r1; r2])
  = Num 100.
Proof.
  intros r1 r2.
  apply (proj2 (criticalVulnerabilityRate_formula IsoDate.getTime) r1 r2);
    [reflexivity|reflexivity|reflexivity|discriminate].
Defined.

(** C10. The critical-asset exposure rate lies between 0 and 100: every
    asset identifier the aggregator collects as critical and unpatchable
    is also among those it collects as critical. *)
Theorem criticalVulnerabilityRate_bounds (Date_getTime : string → number)
    (data : list Vuln.VulnDataType) :
  let rate := Vuln.criticalVulnerabilityRate (Vuln.calculateVulnKpis Date_getTime data) in
  (∀ a, a ∈ Set_spread (map Vuln.AssetID (List.filter Vuln.isUnpatchableCritical data)) →
        a ∈ Set_spread (map Vuln.AssetID (List.filter Vuln.isCriticalAsset data)))
  ∧ js_le (Num 0) rate = true ∧ js_le rate (Num 100) = true.
Proof.
  intros rate. split.
  - intros a. rewrite !elem_of_Set_spread, !list_elem_of_In, !in_map_iff.
    intros (v & Ha & Hin). exists v. split; [done|].
    apply filter_In in Hin as [Hin Hu]. apply filter_In. split; [done|].
    apply isUnpatchableCritical_iff in Hu as [Hc _]. by apply isCriticalAsset_iff.
  - subst rate. rewrite criticalVulnerabilityRate_sizes.
    case_decide as Hn; [done|].
    apply percent_bounds; [|done].
    apply subseteq_size, unpatchable_subseteq_critical.
Qed.

Section RemediationTime.

Import Vuln.

Variable Date_getTime : string → number.

Lemma isResolvedWithDates_iff (v : VulnDataType) :
  isResolvedWithDates v = true
  ↔ Status v = "Resolved" ∧ present (PatchAppliedDate v) ∧ present (DetectionDate v).
Proof.
  unfold isResolvedWithDates.
  rewrite !andb_true_iff, String.eqb_eq, !Is_true_true. tauto.
Qed.

Lemma resolvedVulns_eq (data : list VulnDataType) :
  List.filter isResolvedWithDates data = resolvedWithDates data.
Proof. apply filter_bool_prop, isResolvedWithDates_iff. Qed.

Lemma daysDiff_finite (v : VulnDataType) :
  datesReadable Date_getTime v →
  ∃ q, daysDiff Date_getTime v = Num q ∧ (q == elapsedDays Date_getTime v)%Q.
Proof.
  intros [[p Hp] [d Hd]]. unfold daysDiff, elapsedDays. rewrite Hp, Hd. simpl.
  eexists. split; [reflexivity|]. rewrite !Qred_correct. reflexivity.
Qed.

Lemma fold_add_finite {A : Type} (g : A → number) (e : A → Q) (l : list A) (q0 : Q) :
  (∀ x, x ∈ l → ∃ q, g x = Num q ∧ (q == e x)%Q) →
  ∃ q, fold_left (λ s x, js_add s (g x)) l (Num q0) = Num q
       ∧ (q == q0 + Qsum (map e l))%Q.
Proof.
  revert q0. induction l as [|x l IH]; intros q0 Hl; simpl.
  - exists q0. split; [done|]. ring.
  - destruct (Hl x) as (q & -> & Hq); [by left|]. simpl.
    destruct (IH (Qred (q0 + q))) as (q' & -> & Hq').
    { intros y Hy. apply Hl. by right. }
    exists q'. split; [done|]. rewrite Hq', Qred_correct, Hq. ring.
Qed.

Lemma fold_count {A : Type} (p : A → bool) (l : list A) (n : nat) :
  fold_left (λ n x, if p x then S n else n) l n = (n + length (List.filter p l))%nat.
Proof.
  revert n. induction l as [|x l IH]; intros n; simpl; [lia|].
  rewrite IH. destruct (p x); simpl; lia.
Qed.

(** The average remediation time is the mean of the elapsed days over
    the resolved records with both dates. *)
Lemma avgRemediationTime_mean (data : list VulnDataType) :
  let resolved := resolvedWithDates data in
  (∀ v, v ∈ resolved → datesReadable Date_getTime v) →
  avgRemediationTime (calculateVulnKpis Date_getTime data)
  = if decide (length resolved = O) then Num 0
    else Num (Qred (Qsum (map (elapsedDays Date_getTime) resolved)
                    / inject_Z (Z.of_nat (length resolved)))).
Proof.
  intros resolved Hdates.
  unfold calculateVulnKpis. cbn [avgRemediationTime].
  rewrite resolvedVulns_eq. fold resolved. rewrite js_lt_0_of_nat.
  case_decide as Hn; [by rewrite Hn|].
  rewrite (proj2 (Nat.eqb_neq _ _) Hn). simpl.
  destruct (fold_add_finite (daysDiff Date_getTime) (elapsedDays Date_getTime)
              resolved 0) as (q & -> & Hq).
  { intros v Hv. by apply daysDiff_finite, Hdates. }
  destruct (length resolved) as [|n]; [done|].
  unfold js_div, of_nat. rewrite Qeq_bool_inject_S. f_equal.
  apply Qred_complete. rewrite Hq, Qplus_0_l. reflexivity.
Qed.

(** The code's on-time test on a record whose dates are readable. *)
Lemma onTime_code (v : VulnDataType) :
  datesReadable Date_getTime v →
  js_le (daysDiff Date_getTime v) (recommendedDays v)
  = match RecommendedTimeframe v with
    | None => true
    | Some t => if truthy t then js_le (Num (elapsedDays Date_getTime v)) t else true
    end.
Proof.
  intros Hd. destruct (daysDiff_finite v Hd) as (q & -> & Hq).
  unfold recommendedDays, js_or.
  destruct (RecommendedTimeframe v) as [t|]; [|done].
  destruct (truthy t); [|done].
  destruct t as [t| | |]; simpl; try done. by rewrite Hq.
Qed.

(** Where every timeframe of the subset is absent or a non-zero number,
    the code computes the on-time rate of the specification. *)
Lemma patchesInTimeRate_agrees (data : list VulnDataType) :
  (∀ v, v ∈ resolvedWithDates data →
        datesReadable Date_getTime v
        ∧ ∀ t, RecommendedTimeframe v = Some t → truthy t = true) →
  patchesInTimeRate (calculateVulnKpis Date_getTime data)
  = onTimePatchRate_spec Date_getTime data.
Proof.
  intros Hok.
  unfold calculateVulnKpis, onTimePatchRate_spec. cbn [patchesInTimeRate].
  rewrite resolvedVulns_eq, js_lt_0_of_nat, fold_count. simpl plus.
  case_decide as Hn; [by rewrite Hn|].
  rewrite (proj2 (Nat.eqb_neq _ _) Hn). cbn [negb].
  rewrite ratio_percent by done. do 2 f_equal.
  apply filter_ext_in. intros v Hv. apply list_elem_of_In in Hv.
  destruct (Hok v Hv) as [Hd Ht]. rewrite (onTime_code v Hd).
  unfold onTime_spec. destruct (RecommendedTimeframe v) as [t|]; [|done].
  by rewrite (Ht t eq_refl).
Qed.

End RemediationTime.

(** C5. The average remediation time is the mean, over the records of
    status "Resolved" with both dates present, of patch time minus
    detection time in days, fractions included, and 0 when there is no
    such record; the dates of those records being dates the host reads.
    In particular two resolved records with elapsed times of 2 and 4 days
    have average 3. *)
Theorem avgRemediationTime_formula (Date_getTime : string → number) :
  (∀ data : list Vuln.VulnDataType,
     let resolved := resolvedWithDates data in
     (∀ v, v ∈ resolved → datesReadable Date_getTime v) →
     Vuln.avgRemediationTime (Vuln.calculateVulnKpis Date_getTime data)
     = if decide (length resolved = O) then Num 0
       else Num (Qred (Qsum (map (elapsedDays Date_getTime) resolved)
                       / inject_Z (Z.of_nat (length resolved)))))
  ∧ (∀ r1 r2 : Vuln.VulnDataType,
       resolvedWithDates [r1; r2] = [r1; r2] →
       datesReadable Date_getTime r1 → datesReadable Date_getTime r2 →
       (elapsedDays Date_getTime r1 == 2)%Q → (elapsedDays Date_getTime r2 == 4)%Q →
       Vuln.avgRemediationTime (Vuln.calculateVulnKpis Date_getTime [r1; r2]) = Num 3).
Proof.
  split; [apply avgRemediationTime_mean|].
  intros r1 r2 Hres Hd1 Hd2 He1 He2.
  rewrite avgRemediationTime_mean; rewrite Hres.
  - simpl. change (Num 3) with (Num (Qred 3)). f_equal. apply Qred_complete.
    rewrite He1, He2. reflexivity.
  - intros v [->|[->|[]%elem_of_nil]%elem_of_cons]%elem_of_cons; done.
Qed.

Lemma avgRemediationTime_formula_witness :
  let r1 := vuln_resolved "2024-01-01" "2024-01-03" None in
  let r2 := vuln_resolved "2024-02-27" "2024-03-02" (Some (Num 30)) in
  Vuln.avgRemediationTime (Vuln.calculateVulnKpis IsoDate.getTime [r1; r2]) = Num 3.
Proof.
  intros r1 r2.
  apply (proj2 (avgRemediationTime_formula IsoDate.getTime) r1 r2).
  - reflexivity.
  - split; eexists; vm_compute; reflexivity.
  - split; eexists; vm_compute; reflexivity.
  - reflexivity.
  - reflexivity.
Defined.

(** C2, on the code. A resolved record patched 2 days after detection
    with a recommended timeframe of 0 days is counted as on time by the
    aggregator ([0 || Infinity] is [Infinity]), so the rate is 100, where
    the rule of the specification (2 <= 0 fails, the timeframe is not
    absent) gives 0. *)
Theorem patchesInTimeRate_zero_timeframe :
  let late := vuln_resolved "2024-01-01" "2024-01-03" (Some (Num 0)) in
  (elapsedDays IsoDate.getTime late == 2)%Q
  ∧ Vuln.recommendedDays late = Infinity
  ∧ Vuln.patchesInTimeRate (Vuln.calculateVulnKpis IsoDate.getTime [late]) = Num 100
  ∧ onTimePatchRate_spec IsoDate.getTime [late] = Num 0.
Proof. repeat split. Qed.

(* ===================================================================== *)
(** ** Properties of the load routine *)
(* ===================================================================== *)

(** C9, as the load routine behaves. When reading or parsing either source
    throws (the request is rejected, the body cannot be read, the parser
    raises an exception), the load routine catches the error: it returns
    normally, the diagnostic log holds exactly that error under the
    routine's message, the loading flag is false, both summaries are still
    the all-zero initial ones, and the page rendered from that state shows
    the zero cards and no error. *)
Theorem loadData_failure {Error Response : Type}
    (fetch : string → Dashboard.result Error Response)
    (Response_text : Response → Dashboard.result Error string)
    (Papa_parse_edr : string → Dashboard.result Error (list Edr.EdrDataType))
    (Papa_parse_vuln : string → Dashboard.result Error (list Vuln.VulnDataType))
    (Date_getTime : string → number) (e : Error) :
  Dashboard.thrownFailure Error Response fetch Response_text Papa_parse_edr Papa_parse_vuln e →
  let run := Dashboard.loadData Error Response fetch Response_text
               Papa_parse_edr Papa_parse_vuln Date_getTime Dashboard.initialState in
  run = (Dashboard.Ok tt,
         Dashboard.mkState [] [] Dashboard.initialEdrKpis Dashboard.initialVulnKpis false
           [("Erreur lors du chargement des données:", e)])
  ∧ Dashboard.render (snd run) = Dashboard.Page zeroCards.
Proof.
  intros Hfail run.
  assert (run = (Dashboard.Ok tt,
         Dashboard.mkState [] [] Dashboard.initialEdrKpis Dashboard.initialVulnKpis false
           [("Erreur lors du chargement des données:", e)])) as Hrun.
  { subst run. unfold Dashboard.thrownFailure, Dashboard.readSource in Hfail.
    unfold Dashboard.loadData, Dashboard.try_catch, mbind, Dashboard.M_bind, Dashboard.await.
    destruct Hfail as [Hedr|(rows & Hedr & Hvuln)].
    - destruct (fetch "/public/edr_data.csv") as [r|e']; [|by inversion Hedr].
      destruct (Response_text r) as [t|e']; [|by inversion Hedr].
      by rewrite Hedr.
    - destruct (fetch "/public/edr_data.csv") as [r|e']; [|done].
      destruct (Response_text r) as [t|e']; [|done].
      rewrite Hedr.
      destruct (fetch "/public/vulnerabilities_data.csv") as [r'|e']; [|by inversion Hvuln].
      destruct (Response_text r') as [t'|e']; [|by inversion Hvuln].
      by rewrite Hvuln. }
  split; [done|]. by rewrite Hrun.
Qed.

Lemma loadData_failure_witness :
  let run := Dashboard.loadData string string sample_fetch sample_text
               sample_parse_edr sample_parse_vuln IsoDate.getTime Dashboard.initialState in
  run = (Dashboard.Ok tt,
         Dashboard.mkState [] [] Dashboard.initialEdrKpis Dashboard.initialVulnKpis false
           [("Erreur lors du chargement des données:", "TypeError: Failed to fetch")])
  ∧ Dashboard.render (snd run) = Dashboard.Page zeroCards.
Proof.
  apply (loadData_failure sample_fetch sample_text sample_parse_edr sample_parse_vuln
           IsoDate.getTime "TypeError: Failed to fetch").
  right. exists three_alerts. split; reflexivity.
Defined.

(** C9, the load the claim fails on. The second source is answered with
    HTTP status 404, which [fetch] does not throw on and the routine does
    not check, and the parser reports an error in its result, which the
    routine does not read: nothing is thrown, nothing is logged, and both
    summaries are overwritten, the vulnerability one from no row at all. *)
Lemma loadData_unthrown_failure :
  let st := snd (Dashboard.loadData string (bool * string)%type http_fetch http_text
                   sample_parse_edr sample_parse_vuln IsoDate.getTime
                   Dashboard.initialState) in
  Dashboard.anyLoadFailure string (bool * string)%type http_fetch http_text
    sample_parse_edr sample_parse_vuln http_ok http_errors
  ∧ Dashboard.console st = []
  ∧ Dashboard.loading st = false
  ∧ Dashboard.edrKpis st ≠ Dashboard.initialEdrKpis
  ∧ Dashboard.vulnKpis st ≠ Dashboard.initialVulnKpis
  ∧ Vuln.remediationRate (Dashboard.vulnKpis st) = NaN.
Proof.
  split_and!; try done.
  right. unfold Dashboard.sourceFails. simpl. by left.
Qed.

(** A load that succeeds stores both summaries and leaves the log empty. *)
Lemma loadData_success {Error Response : Type}
    (fetch : string → Dashboard.result Error Response)
    (Response_text : Response → Dashboard.result Error string)
    (Papa_parse_edr : string → Dashboard.result Error (list Edr.EdrDataType))
    (Papa_parse_vuln : string → Dashboard.result Error (list Vuln.VulnDataType))
    (Date_getTime : string → number)
    (alerts : list Edr.EdrDataType) (vulns : list Vuln.VulnDataType) :
  Dashboard.readSource Error Response fetch Response_text
    "/public/edr_data.csv" Papa_parse_edr = Dashboard.Ok alerts →
  Dashboard.readSource Error Response fetch Response_text
    "/public/vulnerabilities_data.csv" Papa_parse_vuln = Dashboard.Ok vulns →
  Dashboard.loadData Error Response fetch Response_text
    Papa_parse_edr Papa_parse_vuln Date_getTime Dashboard.initialState
  = (Dashboard.Ok tt,
     Dashboard.mkState alerts vulns (Edr.calculateEdrKpis alerts)
       (Vuln.calculateVulnKpis Date_getTime vulns) false []).
Proof.
  unfold Dashboard.readSource, Dashboard.loadData, Dashboard.try_catch, mbind,
    Dashboard.M_bind, Dashboard.await.
  intros Hedr Hvuln.
  destruct (fetch "/public/edr_data.csv") as [r|e']; [|done].
  destruct (Response_text r) as [t|e']; [|done]. rewrite Hedr.
  destruct (fetch "/public/vulnerabilities_data.csv") as [r'|e']; [|done].
  destruct (Response_text r') as [t'|e']; [|done]. by rewrite Hvuln.
Qed.

(* ===================================================================== *)
(** ** Counter tables read back *)
(* ===================================================================== *)

Section CounterLookup.

Lemma names_of_series (counts : CountObject) (total : number) :
  map name (chart_series counts total) = Object_keys counts.
Proof. unfold chart_series. rewrite map_map. simpl. apply map_id. Qed.

Lemma insert_key_sorted (i : N) (key : string) (l : list (N * string)) :
  Sorted N.le (map fst l) → Sorted N.le (map fst (insert_key i key l)).
Proof.
  induction l as [|[j k] rest IH]; simpl; intros Hs.
  - by repeat constructor.
  - destruct (N.leb_spec i j) as [Hij|Hij]; simpl.
    + constructor; [done|]. by constructor.
    + apply Sorted_inv in Hs as [Hs Hhd]. constructor; [by apply IH|].
      destruct rest as [|[j' k'] rest']; simpl.
      * constructor. lia.
      * apply HdRel_inv in Hhd. simpl in Hhd.
        destruct (i <=? j')%N; simpl; constructor; lia.
Qed.

Lemma index_keys_sorted (keys : list string) : Sorted N.le (map fst (index_keys keys)).
Proof.
  unfold index_keys. induction keys as [|key keys IH]; simpl; [constructor|].
  destruct (array_index key) as [i|]; [|done]. by apply insert_key_sorted.
Qed.

Lemma names_of_count_by {A : Type} (f : A → string) (data : list A) (total : number) :
  names_of f data (chart_series (count_by f data) total).
Proof.
  unfold names_of, kept_labels. rewrite names_of_series.
  rewrite <- count_by_own_keys. split_and!.
  - rewrite Object_keys_perm. apply count_by_NoDup.
  - apply Object_keys_perm.
  - done.
  - apply index_keys_sorted.
  - intros Hidx. apply Object_keys_no_index. intros key Hkey.
    apply label_in_own_keys in Hkey as [_ Hn].
    apply label_count_pos in Hn as (x & Hx & <-). by apply Hidx.
Qed.

Lemma series_of_count_by {A : Type} (f : A → string) (data : list A) :
  series_of f data (chart_series (count_by f data) (of_nat (length data))).
Proof.
  intros e He n. unfold chart_series in He.
  apply list_elem_of_In, in_map_iff in He as (key & <- & Hkey).
  apply list_elem_of_In in Hkey. subst n. simpl.
  destruct (series_key_facts f data key Hkey) as (Hp & Hn & ->).
  split_and!; [done..|]. case_decide as Hfn; [done|].
  split; [done|]. simpl. apply ratio_percent.
  apply label_count_pos in Hn as (x & Hx & _). by destruct data; [apply elem_of_nil in Hx|].
Qed.

Lemma fold_add_of_nat (vs : list nat) (a : nat) :
  fold_left js_add (map of_nat vs) (of_nat a) = of_nat (a + sum_list vs).
Proof.
  revert a. induction vs as [|v vs IH]; intros a; cbn [map fold_left sum_list].
  - simpl. by rewrite Nat.add_0_r.
  - rewrite js_add_of_nat, IH. f_equal. simpl. lia.
Qed.

Lemma values_total_count_by {A : Type} (f : A → string) (data : list A) (total : number) :
  values_total f data (chart_series (count_by f data) total).
Proof.
  intros Hfn. unfold value_sum.
  rewrite (fold_left_map_acc js_add (λ e, ToNumber (value e))).
  unfold chart_series. rewrite map_map. simpl.
  rewrite (map_ext_in _ (λ key, of_nat (label_count f data key))).
  - rewrite <- (map_map (label_count f data) of_nat).
    change (Num 0) with (of_nat 0). rewrite fold_add_of_nat. simpl. f_equal.
    rewrite (sum_list_perm _ _ (Permutation_map (label_count f data)
               (Object_keys_perm (count_by f data)))).
    rewrite sum_list_label_counts by apply count_by_NoDup.
    f_equal. apply filter_ext_elem.
    intros x Hx. rewrite label_in_own_keys, label_count_pos. split; [tauto|].
    intros Hp. split; [done|]. by exists x.
  - intros key Hkey. apply list_elem_of_In in Hkey.
    destruct (series_key_facts f data key Hkey) as (Hp & Hn & ->).
    apply label_count_pos in Hn as (x & Hin & <-).
    by rewrite decide_False by (by apply Hfn).
Qed.

End CounterLookup.

(** What a counting helper stores, for each of the six fields: under a
    label carried by no record, and under [__proto__], nothing; under the
    name of a function inherited from [Object.prototype] the text of that
    function followed by one character 1 per record carrying the label;
    under any other label the number of records carrying it. Reading a
    label that has no entry gives the member inherited under that name, or
    [undefined]. *)
Theorem count_by_label {A : Type} (f : A → string) (data : list A) (key : string) :
  co_own (count_by f data) key = counted key (label_count f data key)
  ∧ co_get (count_by f data) key
    = match counted key (label_count f data key) with
      | Some v => v
      | None =>
          if decide (key = "__proto__") then JPrototype
          else if decide (key ∈ Object_prototype_functions) then JFunction key
          else JUndefined
      end.
Proof.
  split; [apply count_by_own|].
  unfold co_get. rewrite count_by_own.
  destruct (counted key (label_count f data key)); [done|].
  destruct (String.eqb_spec key "__proto__") as [->|Hp]; [done|].
  rewrite decide_False by done.
  destruct (existsb (String.eqb key) Object_prototype_functions) eqn:E.
  - apply existsb_functions_iff in E. by rewrite decide_True.
  - rewrite decide_False; [done|]. intros Hin.
    apply existsb_functions_iff in Hin. congruence.
Qed.

(** The names listed by each series are the distinct labels of its field
    other than [__proto__], each once: the array indices first in
    ascending order, then the other labels in the order the records first
    show them. *)
Theorem series_names (Date_getTime : string → number)
    (alerts : list Edr.EdrDataType) (vulns : list Vuln.VulnDataType) :
  let e := Edr.calculateEdrKpis alerts in
  let v := Vuln.calculateVulnKpis Date_getTime vulns in
  (names_of Edr.Severity alerts (Edr.severityData e)
   ∧ names_of Edr.AlertType alerts (Edr.alertTypeData e)
   ∧ names_of Edr.Status alerts (Edr.statusData e))
  ∧ (names_of Vuln.Severity vulns (Vuln.severityData v)
     ∧ names_of Vuln.Status vulns (Vuln.statusData v)
     ∧ names_of Vuln.DetectionSource vulns (Vuln.sourceData v)).
Proof. intros e v. split_and!; apply names_of_count_by. Qed.

Lemma series_names_witness :
  map name (Edr.alertTypeData (Edr.calculateEdrKpis index_alerts)) = [ "1"; "2"; "Low" ]
  ∧ map name (Edr.severityData (Edr.calculateEdrKpis three_alerts)) = [ "Critical"; "Low" ].
Proof.
  destruct (series_names IsoDate.getTime index_alerts []) as [(_ & Ha & _) _].
  destruct (series_names IsoDate.getTime three_alerts []) as [(Hs & _ & _) _].
  destruct Ha as (_ & _ & Ha & _). destruct Hs as (_ & _ & _ & _ & Hs).
  split; [exact Ha|]. apply Hs.
  intros x Hx. repeat (apply elem_of_cons in Hx as [->|Hx]); try reflexivity.
  by apply elem_of_nil in Hx.
Defined.

(** Every entry of every series names a label, other than [__proto__],
    that at least one record carries. Under the name of a function
    inherited from [Object.prototype] the value is a text and the
    percentage NaN; under any other name the value is the number of
    records with that label and the percentage that number over the
    number of records. *)
Theorem series_entries (Date_getTime : string → number)
    (alerts : list Edr.EdrDataType) (vulns : list Vuln.VulnDataType) :
  let e := Edr.calculateEdrKpis alerts in
  let v := Vuln.calculateVulnKpis Date_getTime vulns in
  (series_of Edr.Severity alerts (Edr.severityData e)
   ∧ series_of Edr.AlertType alerts (Edr.alertTypeData e)
   ∧ series_of Edr.Status alerts (Edr.statusData e))
  ∧ (series_of Vuln.Severity vulns (Vuln.severityData v)
     ∧ series_of Vuln.Status vulns (Vuln.statusData v)
     ∧ series_of Vuln.DetectionSource vulns (Vuln.sourceData v)).
Proof. intros e v. split_and!; apply series_of_count_by. Qed.

(** When no label of its field names a function inherited from
    [Object.prototype], the values of a series add up to the number of
    records whose label is not [__proto__]: each such record is counted
    in exactly one group, and the records labelled [__proto__] in none. *)
Theorem series_values_total (Date_getTime : string → number)
    (alerts : list Edr.EdrDataType) (vulns : list Vuln.VulnDataType) :
  let e := Edr.calculateEdrKpis alerts in
  let v := Vuln.calculateVulnKpis Date_getTime vulns in
  (values_total Edr.Severity alerts (Edr.severityData e)
   ∧ values_total Edr.AlertType alerts (Edr.alertTypeData e)
   ∧ values_total Edr.Status alerts (Edr.statusData e))
  ∧ (values_total Vuln.Severity vulns (Vuln.severityData v)
     ∧ values_total Vuln.Status vulns (Vuln.statusData v)
     ∧ values_total Vuln.DetectionSource vulns (Vuln.sourceData v)).
Proof. intros e v. split_and!; apply values_total_count_by. Qed.

Lemma series_values_total_witness :
  value_sum (Edr.severityData (Edr.calculateEdrKpis proto_alerts)) = Num 1
  ∧ value_sum (Edr.severityData (Edr.calculateEdrKpis three_alerts)) = Num 3.
Proof.
  destruct (series_values_total IsoDate.getTime proto_alerts []) as [(Hp & _ & _) _].
  destruct (series_values_total IsoDate.getTime three_alerts []) as [(Ht & _ & _) _].
  split; [apply Hp|apply Ht];
    intros x Hx; repeat (apply elem_of_cons in Hx as [->|Hx]);
    try (by apply elem_of_nil in Hx);
    (apply (bool_decide_unpack _); vm_compute; exact I).
Defined.

(* ===================================================================== *)
(** ** Further properties of the alert aggregator *)
(* ===================================================================== *)

Section MoreCountArith.

Lemma js_le_of_nat (a b : nat) : js_le (of_nat a) (of_nat b) = true ↔ (a ≤ b)%nat.
Proof.
  unfold js_le, of_nat. rewrite Qle_bool_iff, <- Zle_Qle. lia.
Qed.

Lemma percent_pred_mono (c t : nat) :
  t ≠ O → js_le (percent c (S t)) (percent c t) = true.
Proof.
  intros Ht. unfold percent, js_le.
  apply Qle_bool_iff. rewrite !Qred_correct.
  assert (0 < inject_Z (Z.of_nat t))%Q as Hpos by (unfold Qlt; simpl; lia).
  assert (0 < inject_Z (Z.of_nat (S t)))%Q as Hpos' by (unfold Qlt; simpl; lia).
  assert (inject_Z (Z.of_nat (S t)) == inject_Z (Z.of_nat t) + 1)%Q as Et.
  { rewrite Nat2Z.inj_succ. unfold Z.succ. rewrite inject_Z_plus. reflexivity. }
  assert (0 <= inject_Z (Z.of_nat c))%Q as Hc0 by (unfold Qle; simpl; lia).
  apply Qle_shift_div_l; [done|].
  setoid_replace (100 * inject_Z (Z.of_nat c) / inject_Z (Z.of_nat (S t)) * inject_Z (Z.of_nat t))%Q
    with (100 * inject_Z (Z.of_nat c) * inject_Z (Z.of_nat t) / inject_Z (Z.of_nat (S t)))%Q
    using relation Qeq by (field; lra).
  apply Qle_shift_div_r; [done|].
  rewrite Et. nra.
Qed.

Lemma percent_eq_100 (c t : nat) : t ≠ O → percent c t = Num 100 ↔ c = t.
Proof.
  intros Ht. pose proof (Qinject_nat_nonzero t Ht) as Hne. split.
  - unfold percent. change (Num 100) with (Num (Qred 100)). intros [= E].
    apply Qred_eq_iff in E.
    assert (inject_Z (Z.of_nat c) == inject_Z (Z.of_nat t))%Q as E'.
    { setoid_replace (inject_Z (Z.of_nat c))
        with (100 * inject_Z (Z.of_nat c) / inject_Z (Z.of_nat t)
              * (inject_Z (Z.of_nat t) / 100))%Q
        using relation Qeq by (field; done).
      rewrite E. field. }
    apply (proj1 (inject_Z_injective _ _)) in E'. lia.
  - intros ->. by apply percent_full.
Qed.

Lemma percent_eq_0 (c t : nat) : t ≠ O → percent c t = Num 0 ↔ c = O.
Proof.
  intros Ht. pose proof (Qinject_nat_nonzero t Ht) as Hne. split.
  - unfold percent. change (Num 0) with (Num (Qred 0)). intros [= E].
    apply Qred_eq_iff in E.
    assert (inject_Z (Z.of_nat c) == 0)%Q as E'.
    { setoid_replace (inject_Z (Z.of_nat c))
        with (100 * inject_Z (Z.of_nat c) / inject_Z (Z.of_nat t)
              * (inject_Z (Z.of_nat t) / 100))%Q
        using relation Qeq by (field; done).
      rewrite E. field. }
    change 0%Q with (inject_Z 0) in E'. apply (proj1 (inject_Z_injective _ _)) in E'. lia.
  - intros ->. unfold percent. change (Num 0) with (Num (Qred 0)). f_equal.
Qed.

Lemma length_filter_perm {A : Type} (f : A → bool) (l l' : list A) :
  l ≡ₚ l' → length (List.filter f l) = length (List.filter f l').
Proof.
  induction 1 as [|x l l' _ IH|x y l|l l' l'' _ IH1 _ IH2]; simpl.
  - done.
  - destruct (f x); simpl; congruence.
  - destruct (f x), (f y); done.
  - congruence.
Qed.

Lemma filter_filter_implies {A : Type} (f g : A → bool) (l : list A) :
  (∀ x, g x = true → f x = true) →
  List.filter g (List.filter f l) = List.filter g l.
Proof.
  intros Hgf. induction l as [|x l IH]; simpl; [done|].
  destruct (f x) eqn:Ef; simpl.
  - by rewrite IH.
  - rewrite IH. destruct (g x) eqn:Eg; [|done].
    apply Hgf in Eg. congruence.
Qed.

Lemma filter_length_all {A : Type} (P : A → Prop) `{!∀ x, Decision (P x)} (l : list A) :
  length (filter P l) = length l → ∀ x, x ∈ l → P x.
Proof.
  induction l as [|a l IH]; intros Hlen x Hx; [by apply elem_of_nil in Hx|].
  rewrite filter_cons in Hlen. case_decide as Ha; simpl in Hlen.
  - apply elem_of_cons in Hx as [->|Hx]; [done|]. apply IH; [lia|done].
  - pose proof (length_filter P l). lia.
Qed.

End MoreCountArith.

(** The number of unique endpoints is the number of distinct hostnames
    among the records, and never exceeds the number of alerts. *)
Theorem uniqueEndpoints_distinct (data : list Edr.EdrDataType) :
  let k := Edr.calculateEdrKpis data in
  Edr.uniqueEndpoints k = of_nat (size (list_to_set (map Edr.Hostname data) : gset string))
  ∧ js_le (Edr.uniqueEndpoints k) (Edr.totalAlerts k) = true.
Proof.
  intros k. subst k. unfold Edr.calculateEdrKpis.
  cbn [Edr.uniqueEndpoints Edr.totalAlerts]. split.
  - by rewrite length_Set_spread.
  - apply js_le_of_nat. rewrite length_Set_spread.
    rewrite <- (length_map Edr.Hostname data).
    generalize (map Edr.Hostname data). intros xs.
    rewrite <- length_Set_spread.
    pose proof (NoDup_Set_spread xs) as Hnd.
    apply (submseteq_length (Set_spread xs) xs).
    apply NoDup_submseteq; [done|]. intros x. apply elem_of_Set_spread.
Qed.

(** The three rates of the alert summary are percentages: the rate of
    suspicious connections lies between 0 and 100 for every list, the
    critical rate and the IoC detection rate for every non-empty list. *)
Theorem edr_rates_bounds (data : list Edr.EdrDataType) :
  let k := Edr.calculateEdrKpis data in
  (js_le (Num 0) (Edr.suspiciousConnectionRate k) = true
   ∧ js_le (Edr.suspiciousConnectionRate k) (Num 100) = true)
  ∧ (data ≠ [] →
     (js_le (Num 0) (Edr.criticalRate k) = true
      ∧ js_le (Edr.criticalRate k) (Num 100) = true)
     ∧ (js_le (Num 0) (Edr.iocDetectionRate k) = true
        ∧ js_le (Edr.iocDetectionRate k) (Num 100) = true)).
Proof.
  intros k. subst k. unfold Edr.calculateEdrKpis.
  cbn [Edr.suspiciousConnectionRate Edr.criticalRate Edr.iocDetectionRate]. split.
  - rewrite truthy_of_nat.
    destruct (length (List.filter Edr.isNetworkConnection data) =? 0)%nat eqn:E; [done|].
    apply Nat.eqb_neq in E. cbn [negb]. rewrite ratio_percent by done.
    apply percent_bounds; [|done].
    rewrite <- (filter_filter_implies Edr.isNetworkConnection Edr.isSuspiciousConnection data).
    + apply filter_length_le.
    + intros a Ha. apply isSuspiciousConnection_iff in Ha as [Ha _].
      by apply isNetworkConnection_iff.
  - intros Hne. assert (length data ≠ O) as Hlen by (by destruct data).
    rewrite !ratio_percent by done.
    split; apply percent_bounds; try done; apply filter_length_le.
Qed.

Lemma edr_rates_bounds_witness :
  let k := Edr.calculateEdrKpis three_alerts in
  (js_le (Num 0) (Edr.criticalRate k) = true ∧ js_le (Edr.criticalRate k) (Num 100) = true)
  ∧ (js_le (Num 0) (Edr.iocDetectionRate k) = true
     ∧ js_le (Edr.iocDetectionRate k) (Num 100) = true).
Proof. apply (proj2 (edr_rates_bounds three_alerts)). discriminate. Defined.

(** Appending a record whose severity is not "Critical" to a non-empty
    alert list never raises the critical rate. *)
Theorem criticalRate_antitone (data : list Edr.EdrDataType) (alert : Edr.EdrDataType) :
  Edr.Severity alert ≠ "Critical" → data ≠ [] →
  js_le (Edr.criticalRate (Edr.calculateEdrKpis (data ++ [alert])))
        (Edr.criticalRate (Edr.calculateEdrKpis data)) = true.
Proof.
  intros Hsev Hne.
  rewrite !criticalRate_nonempty by (done || by destruct data).
  rewrite filter_app, !length_app, filter_cons, decide_False by done.
  rewrite filter_nil. simpl. rewrite !Nat.add_0_r, Nat.add_1_r.
  apply percent_pred_mono. by destruct data.
Qed.

Lemma criticalRate_antitone_witness :
  js_le (Edr.criticalRate (Edr.calculateEdrKpis (three_alerts ++ [alert_of_severity "Medium"])))
        (Edr.criticalRate (Edr.calculateEdrKpis three_alerts)) = true.
Proof.
  apply (criticalRate_antitone three_alerts (alert_of_severity "Medium")); discriminate.
Defined.

(** On a non-empty alert list the critical rate is 100 exactly when every
    record is critical, and 0 exactly when none is. *)
Theorem criticalRate_extremes (data : list Edr.EdrDataType) :
  data ≠ [] →
  let rate := Edr.criticalRate (Edr.calculateEdrKpis data) in
  (rate = Num 100 ↔ ∀ a, a ∈ data → Edr.Severity a = "Critical")
  ∧ (rate = Num 0 ↔ ∀ a, a ∈ data → Edr.Severity a ≠ "Critical").
Proof.
  intros Hne rate. subst rate.
  assert (length data ≠ O) as Hlen by (by destruct data).
  rewrite criticalRate_nonempty by done.
  rewrite percent_eq_100, percent_eq_0 by done. split.
  - split.
    + intros Hlenf a Ha.
      by apply (filter_length_all (λ a, Edr.Severity a = "Critical") data).
    + intros Hall. f_equal. induction data as [|a data IH]; [done|].
      rewrite filter_cons, decide_True by (apply Hall; by left).
      f_equal. destruct data as [|b data']; [done|].
      apply IH; [done|done|]. intros x Hx. apply Hall. by right.
  - split.
    + intros Hlenf a Ha Hcrit.
      assert (a ∈ filter (λ a, Edr.Severity a = "Critical") data) as Hf.
      { by apply list_elem_of_filter. }
      destruct (filter _ data); [by apply elem_of_nil in Hf|done].
    + intros Hnone.
      destruct (filter (λ a, Edr.Severity a = "Critical") data) as [|a l] eqn:Hf; [done|].
      assert (a ∈ filter (λ a, Edr.Severity a = "Critical") data) as Ha.
      { rewrite Hf. by left. }
      apply list_elem_of_filter in Ha as [Hc Ha]. by destruct (Hnone a Ha).
Qed.

Lemma criticalRate_extremes_witness :
  let rate := Edr.criticalRate (Edr.calculateEdrKpis [alert_of_severity "Critical"]) in
  (rate = Num 100 ↔ ∀ a, a ∈ [alert_of_severity "Critical"] → Edr.Severity a = "Critical")
  ∧ (rate = Num 0 ↔ ∀ a, a ∈ [alert_of_severity "Critical"] → Edr.Severity a ≠ "Critical").
Proof. apply (criticalRate_extremes [alert_of_severity "Critical"]). discriminate. Defined.

(** The rates and counts of the alert summary do not depend on the order
    of the records. *)
Theorem edr_rates_permutation (data data' : list Edr.EdrDataType) :
  data ≡ₚ data' →
  let k := Edr.calculateEdrKpis data in
  let k' := Edr.calculateEdrKpis data' in
  Edr.totalAlerts k = Edr.totalAlerts k'
  ∧ Edr.criticalRate k = Edr.criticalRate k'
  ∧ Edr.iocDetectionRate k = Edr.iocDetectionRate k'
  ∧ Edr.suspiciousConnectionRate k = Edr.suspiciousConnectionRate k'
  ∧ Edr.uniqueEndpoints k = Edr.uniqueEndpoints k'.
Proof.
  intros Hperm k k'. subst k k'. unfold Edr.calculateEdrKpis.
  cbn [Edr.totalAlerts Edr.criticalRate Edr.iocDetectionRate
       Edr.suspiciousConnectionRate Edr.uniqueEndpoints].
  rewrite !(length_filter_perm _ data data' Hperm).
  rewrite (Permutation_length Hperm), !length_Set_spread.
  split_and!; try done.
  do 2 f_equal. apply (list_to_set_perm_L (C := gset string)).
  by apply Permutation_map.
Qed.

Lemma edr_rates_permutation_witness :
  Edr.criticalRate (Edr.calculateEdrKpis three_alerts)
  = Edr.criticalRate (Edr.calculateEdrKpis (rev three_alerts)).
Proof.
  apply (edr_rates_permutation three_alerts (rev three_alerts)).
  apply Permutation_rev.
Defined.

(** The rate of suspicious connections is decided by the "Network
    Connection" records alone: dropping every other record leaves it
    unchanged. *)
Theorem suspiciousConnectionRate_network_only (data : list Edr.EdrDataType) :
  Edr.suspiciousConnectionRate (Edr.calculateEdrKpis data)
  = Edr.suspiciousConnectionRate
      (Edr.calculateEdrKpis (List.filter Edr.isNetworkConnection data)).
Proof.
  unfold Edr.calculateEdrKpis. cbn [Edr.suspiciousConnectionRate].
  rewrite (filter_filter_implies Edr.isNetworkConnection Edr.isNetworkConnection) by done.
  rewrite (filter_filter_implies Edr.isNetworkConnection Edr.isSuspiciousConnection); [done|].
  intros a Ha. apply isSuspiciousConnection_iff in Ha as [Ha _].
  by apply isNetworkConnection_iff.
Qed.

(* ===================================================================== *)
(** ** Further properties of the vulnerability aggregator *)
(* ===================================================================== *)

Section MoreVuln.

Import Vuln.

Variable Date_getTime : string → number.

Lemma js_add_NaN_r (x : number) : js_add x NaN = NaN.
Proof. by destruct x. Qed.

Lemma fold_add_from_NaN {A : Type} (g : A → number) (l : list A) :
  fold_left (λ s x, js_add s (g x)) l NaN = NaN.
Proof. induction l as [|x l IH]; simpl; done. Qed.

Lemma fold_add_poisoned {A : Type} (g : A → number) (l : list A) (s : number) (x : A) :
  x ∈ l → g x = NaN → fold_left (λ s x, js_add s (g x)) l s = NaN.
Proof.
  revert s. induction l as [|y l IH]; intros s Hx Hg; [by apply elem_of_nil in Hx|].
  apply elem_of_cons in Hx as [->|Hx]; simpl.
  - rewrite Hg, js_add_NaN_r. apply fold_add_from_NaN.
  - by apply IH.
Qed.

Lemma daysDiff_unreadable (v : VulnDataType) :
  getTime Date_getTime (PatchAppliedDate v) = NaN
  ∨ getTime Date_getTime (DetectionDate v) = NaN →
  daysDiff Date_getTime v = NaN.
Proof.
  unfold daysDiff. intros [->| ->]; [done|].
  by destruct (getTime Date_getTime (PatchAppliedDate v)).
Qed.

Lemma filter_perm {A : Type} (f : A → bool) (l l' : list A) :
  l ≡ₚ l' → List.filter f l ≡ₚ List.filter f l'.
Proof.
  induction 1 as [|x l l' _ IH|x y l|l l' l'' _ IH1 _ IH2]; simpl.
  - done.
  - destruct (f x); [by constructor|done].
  - destruct (f x), (f y); try done. apply perm_swap.
  - by etrans.
Qed.

Lemma Qsum_bounds {A : Type} (e : A → Q) (l : list A) (lo hi : Q) :
  (∀ x, x ∈ l → (lo <= e x <= hi)%Q) →
  (inject_Z (Z.of_nat (length l)) * lo <= Qsum (map e l)
   ∧ Qsum (map e l) <= inject_Z (Z.of_nat (length l)) * hi)%Q.
Proof.
  induction l as [|x l IH]; intros Hl.
  - change (inject_Z (Z.of_nat (length (@nil A)))) with 0%Q.
    change (Qsum (map e [])) with 0%Q. lra.
  - destruct (Hl x) as [Hlo Hhi]; [by left|].
    destruct IH as [IHlo IHhi]; [intros y Hy; apply Hl; by right|].
    cbn [length map Qsum fold_right].
    rewrite Nat2Z.inj_succ. unfold Z.succ. rewrite inject_Z_plus.
    fold (Qsum (map e l)). change (inject_Z 1) with 1%Q. lra.
Qed.

End MoreVuln.

(** The rate of patches in time lies between 0 and 100 for every list
    and every reading of the dates, and the remediation rate for every
    non-empty list. *)
Theorem vuln_rates_bounds (Date_getTime : string → number)
    (data : list Vuln.VulnDataType) :
  let k := Vuln.calculateVulnKpis Date_getTime data in
  (js_le (Num 0) (Vuln.patchesInTimeRate k) = true
   ∧ js_le (Vuln.patchesInTimeRate k) (Num 100) = true)
  ∧ (data ≠ [] →
     js_le (Num 0) (Vuln.remediationRate k) = true
     ∧ js_le (Vuln.remediationRate k) (Num 100) = true).
Proof.
  intros k. subst k. unfold Vuln.calculateVulnKpis.
  cbn [Vuln.patchesInTimeRate Vuln.remediationRate]. split.
  - rewrite js_lt_0_of_nat, fold_count. simpl plus.
    destruct (length (List.filter Vuln.isResolvedWithDates data) =? 0)%nat eqn:E; [done|].
    apply Nat.eqb_neq in E. cbn [negb]. rewrite ratio_percent by done.
    apply percent_bounds; [apply filter_length_le|done].
  - intros Hne. assert (length data ≠ O) as Hlen by (by destruct data).
    rewrite ratio_percent by done.
    apply percent_bounds; [apply filter_length_le|done].
Qed.

Lemma vuln_rates_bounds_witness :
  let k := Vuln.calculateVulnKpis IsoDate.getTime
             [ vuln_resolved "2024-01-01" "2024-01-03" None ] in
  js_le (Num 0) (Vuln.remediationRate k) = true
  ∧ js_le (Vuln.remediationRate k) (Num 100) = true.
Proof.
  apply (proj2 (vuln_rates_bounds IsoDate.getTime
                  [ vuln_resolved "2024-01-01" "2024-01-03" None ])).
  discriminate.
Defined.

(** One resolved record whose patch date or detection date is present
    but is not read as a date makes the average remediation time NaN,
    whatever the other records; that record is never counted as patched
    in time. *)
Theorem unreadable_date_average (Date_getTime : string → number)
    (data : list Vuln.VulnDataType) (v : Vuln.VulnDataType) :
  v ∈ resolvedWithDates data →
  Vuln.getTime Date_getTime (Vuln.PatchAppliedDate v) = NaN
  ∨ Vuln.getTime Date_getTime (Vuln.DetectionDate v) = NaN →
  Vuln.avgRemediationTime (Vuln.calculateVulnKpis Date_getTime data) = NaN
  ∧ js_le (Vuln.daysDiff Date_getTime v) (Vuln.recommendedDays v) = false.
Proof.
  intros Hv Hnan. pose proof (daysDiff_unreadable Date_getTime v Hnan) as Hd.
  split; [|by rewrite Hd].
  unfold Vuln.calculateVulnKpis. cbn [Vuln.avgRemediationTime].
  rewrite resolvedVulns_eq, js_lt_0_of_nat.
  rewrite (fold_add_poisoned (Vuln.daysDiff Date_getTime) _ _ v Hv Hd).
  destruct (resolvedWithDates data); [by apply elem_of_nil in Hv|done].
Qed.

Lemma unreadable_date_average_witness :
  Vuln.avgRemediationTime
    (Vuln.calculateVulnKpis IsoDate.getTime
       [ vuln_resolved "2024-01-01" "2024-01-03" None;
         vuln_resolved "2024-01-01" "pending" None ]) = NaN.
Proof.
  apply (unreadable_date_average IsoDate.getTime
           [ vuln_resolved "2024-01-01" "2024-01-03" None;
             vuln_resolved "2024-01-01" "pending" None ]
           (vuln_resolved "2024-01-01" "pending" None)).
  - right. left.
  - left. reflexivity.
Defined.

(** With readable dates, the rate of patches in time is 100 times the
    number of resolved-with-dates records that are on time over the number
    of such records, and 0 when there is none; a record is on time when
    its timeframe is absent, 0 or NaN, or when its elapsed days are at
    most its timeframe. *)
Theorem patchesInTimeRate_formula (Date_getTime : string → number)
    (data : list Vuln.VulnDataType) :
  let resolved := resolvedWithDates data in
  (∀ v, v ∈ resolved → datesReadable Date_getTime v) →
  Vuln.patchesInTimeRate (Vuln.calculateVulnKpis Date_getTime data)
  = if decide (length resolved = O) then Num 0
    else percent (length (List.filter (onTime_coded Date_getTime) resolved))
                 (length resolved).
Proof.
  intros resolved Hok.
  unfold Vuln.calculateVulnKpis. cbn [Vuln.patchesInTimeRate].
  rewrite resolvedVulns_eq, js_lt_0_of_nat, fold_count. simpl plus. fold resolved.
  case_decide as Hn; [by rewrite Hn|].
  rewrite (proj2 (Nat.eqb_neq _ _) Hn). cbn [negb].
  rewrite ratio_percent by done. do 2 f_equal.
  apply filter_ext_in. intros v Hv. apply list_elem_of_In in Hv.
  by rewrite (onTime_code Date_getTime v (Hok v Hv)).
Qed.

Lemma patchesInTimeRate_formula_witness :
  Vuln.patchesInTimeRate
    (Vuln.calculateVulnKpis IsoDate.getTime
       [ vuln_resolved "2024-01-01" "2024-01-03" (Some (Num 1));
         vuln_resolved "2024-02-27" "2024-03-02" (Some (Num 4)) ]) = Num 50.
Proof.
  rewrite (patchesInTimeRate_formula IsoDate.getTime
             [ vuln_resolved "2024-01-01" "2024-01-03" (Some (Num 1));
               vuln_resolved "2024-02-27" "2024-03-02" (Some (Num 4)) ]).
  - reflexivity.
  - intros v Hv. change (resolvedWithDates _) with
      [ vuln_resolved "2024-01-01" "2024-01-03" (Some (Num 1));
        vuln_resolved "2024-02-27" "2024-03-02" (Some (Num 4)) ] in Hv.
    apply elem_of_cons in Hv as [->|Hv];
      [|apply elem_of_cons in Hv as [->|Hv]; [|by apply elem_of_nil in Hv]];
      split; eexists; vm_compute; reflexivity.
Defined.

(** With readable dates and at least one resolved-with-dates record, the
    average remediation time lies between any two bounds that hold for
    the elapsed days of every such record. *)
Theorem avgRemediationTime_between (Date_getTime : string → number)
    (data : list Vuln.VulnDataType) (lo hi : Q) :
  let resolved := resolvedWithDates data in
  resolved ≠ [] →
  (∀ v, v ∈ resolved →
     datesReadable Date_getTime v
     ∧ (lo <= elapsedDays Date_getTime v <= hi)%Q) →
  let avg := Vuln.avgRemediationTime (Vuln.calculateVulnKpis Date_getTime data) in
  js_le (Num lo) avg = true ∧ js_le avg (Num hi) = true.
Proof.
  intros resolved Hne Hok avg. subst avg.
  rewrite avgRemediationTime_mean by (intros v Hv; by apply Hok).
  fold resolved. assert (length resolved ≠ O) as Hlen by (by destruct resolved).
  rewrite decide_False by done.
  destruct (Qsum_bounds (elapsedDays Date_getTime) resolved lo hi) as [Hlo Hhi].
  { intros v Hv. by apply Hok. }
  assert (0 < inject_Z (Z.of_nat (length resolved)))%Q as Hpos.
  { unfold Qlt. simpl. lia. }
  unfold js_le. split; apply Qle_bool_iff; rewrite Qred_correct.
  - apply Qle_shift_div_l; [done|]. lra.
  - apply Qle_shift_div_r; [done|]. lra.
Qed.

Lemma avgRemediationTime_between_witness :
  let avg := Vuln.avgRemediationTime
    (Vuln.calculateVulnKpis IsoDate.getTime
       [ vuln_resolved "2024-01-01" "2024-01-03" None;
         vuln_resolved "2024-02-27" "2024-03-02" None ]) in
  js_le (Num 2) avg = true ∧ js_le avg (Num 4) = true.
Proof.
  apply (avgRemediationTime_between IsoDate.getTime
           [ vuln_resolved "2024-01-01" "2024-01-03" None;
             vuln_resolved "2024-02-27" "2024-03-02" None ] 2 4).
  - discriminate.
  - intros v Hv. change (resolvedWithDates _) with
      [ vuln_resolved "2024-01-01" "2024-01-03" None;
        vuln_resolved "2024-02-27" "2024-03-02" None ] in Hv.
    apply elem_of_cons in Hv as [->|Hv];
      [|apply elem_of_cons in Hv as [->|Hv]; [|by apply elem_of_nil in Hv]].
    + split; [split; eexists; vm_compute; reflexivity|].
      split; vm_compute; discriminate.
    + split; [split; eexists; vm_compute; reflexivity|].
      split; vm_compute; discriminate.
Defined.

(** The count-based figures of the vulnerability summary do not depend on
    the order of the records. *)
Theorem vuln_rates_permutation (Date_getTime : string → number)
    (data data' : list Vuln.VulnDataType) :
  data ≡ₚ data' →
  let k := Vuln.calculateVulnKpis Date_getTime data in
  let k' := Vuln.calculateVulnKpis Date_getTime data' in
  Vuln.totalVulnerabilities k = Vuln.totalVulnerabilities k'
  ∧ Vuln.remediationRate k = Vuln.remediationRate k'
  ∧ Vuln.criticalVulnerabilityRate k = Vuln.criticalVulnerabilityRate k'
  ∧ Vuln.patchesInTimeRate k = Vuln.patchesInTimeRate k'.
Proof.
  intros Hperm k k'. subst k k'. split_and!.
  - unfold Vuln.calculateVulnKpis. cbn [Vuln.totalVulnerabilities].
    by rewrite (Permutation_length Hperm).
  - unfold Vuln.calculateVulnKpis. cbn [Vuln.remediationRate].
    by rewrite (length_filter_perm _ data data' Hperm), (Permutation_length Hperm).
  - rewrite !criticalVulnerabilityRate_sizes.
    unfold distinctCriticalAssets, distinctUnpatchableCriticalAssets.
    rewrite <- !(filter_bool_prop Vuln.isCriticalAsset _ _ isCriticalAsset_iff).
    rewrite <- !(filter_bool_prop Vuln.isUnpatchableCritical _ _ isUnpatchableCritical_iff).
    rewrite (list_to_set_perm_L (C := gset string) _ _
               (Permutation_map Vuln.AssetID (filter_perm Vuln.isCriticalAsset _ _ Hperm))).
    by rewrite (list_to_set_perm_L (C := gset string) _ _
               (Permutation_map Vuln.AssetID (filter_perm Vuln.isUnpatchableCritical _ _ Hperm))).
  - unfold Vuln.calculateVulnKpis. cbn [Vuln.patchesInTimeRate].
    rewrite !fold_count. simpl plus.
    pose proof (filter_perm Vuln.isResolvedWithDates _ _ Hperm) as Hres.
    by rewrite (length_filter_perm _ _ _ Hres), (Permutation_length Hres).
Qed.

Lemma vuln_rates_permutation_witness :
  let data := [ vuln_resolved "2024-01-01" "2024-01-03" (Some (Num 1));
                vuln_resolved "2024-02-27" "2024-03-02" None ] in
  Vuln.patchesInTimeRate (Vuln.calculateVulnKpis IsoDate.getTime data)
  = Vuln.patchesInTimeRate (Vuln.calculateVulnKpis IsoDate.getTime (rev data)).
Proof.
  intros data.
  apply (vuln_rates_permutation IsoDate.getTime data (rev data)).
  apply Permutation_rev.
Defined.

(** Each remediation figure is decided by the resolved records with both
    dates alone, and the critical-asset exposure rate by the critical
    records alone: dropping every other record leaves them unchanged. *)
Theorem vuln_rates_subset_only (Date_getTime : string → number)
    (data : list Vuln.VulnDataType) :
  let k := Vuln.calculateVulnKpis Date_getTime data in
  let kr := Vuln.calculateVulnKpis Date_getTime
              (List.filter Vuln.isResolvedWithDates data) in
  let kc := Vuln.calculateVulnKpis Date_getTime
              (List.filter Vuln.isCriticalAsset data) in
  Vuln.avgRemediationTime k = Vuln.avgRemediationTime kr
  ∧ Vuln.patchesInTimeRate k = Vuln.patchesInTimeRate kr
  ∧ Vuln.criticalVulnerabilityRate k = Vuln.criticalVulnerabilityRate kc.
Proof.
  intros k kr kc. subst k kr kc. unfold Vuln.calculateVulnKpis.
  cbn [Vuln.avgRemediationTime Vuln.patchesInTimeRate Vuln.criticalVulnerabilityRate].
  rewrite (filter_filter_implies Vuln.isResolvedWithDates Vuln.isResolvedWithDates) by done.
  rewrite (filter_filter_implies Vuln.isCriticalAsset Vuln.isCriticalAsset) by done.
  rewrite (filter_filter_implies Vuln.isCriticalAsset Vuln.isUnpatchableCritical); [done|].
  intros v Hv. apply isUnpatchableCritical_iff in Hv as [Hc _].
  by apply isCriticalAsset_iff.
Qed.

(* ===================================================================== *)
(** ** Further properties of the component *)
(* ===================================================================== *)

(** Whatever the host does, the load routine returns normally, leaves the
    loading flag false and at most one line in the diagnostic log, and the
    component then renders the page, not the spinner. *)
Theorem loadData_settles {Error Response : Type}
    (fetch : string → Dashboard.result Error Response)
    (Response_text : Response → Dashboard.result Error string)
    (Papa_parse_edr : string → Dashboard.result Error (list Edr.EdrDataType))
    (Papa_parse_vuln : string → Dashboard.result Error (list Vuln.VulnDataType))
    (Date_getTime : string → number) :
  let run := Dashboard.loadData Error Response fetch Response_text
               Papa_parse_edr Papa_parse_vuln Date_getTime Dashboard.initialState in
  fst run = Dashboard.Ok tt
  ∧ Dashboard.loading (snd run) = false
  ∧ (length (Dashboard.console (snd run)) ≤ 1)%nat
  ∧ Dashboard.render (snd run) ≠ Dashboard.Spinner.
Proof.
  intros run. subst run.
  unfold Dashboard.loadData, Dashboard.try_catch, mbind, Dashboard.M_bind, Dashboard.await.
  destruct (fetch "/public/edr_data.csv") as [r|e]; [|by split_and!; simpl; try lia].
  destruct (Response_text r) as [t|e]; [|by split_and!; simpl; try lia].
  destruct (Papa_parse_edr t) as [alerts|e]; [|by split_and!; simpl; try lia].
  destruct (fetch "/public/vulnerabilities_data.csv") as [r'|e];
    [|by split_and!; simpl; try lia].
  destruct (Response_text r') as [t'|e]; [|by split_and!; simpl; try lia].
  destruct (Papa_parse_vuln t') as [vulns|e]; by split_and!; simpl; try lia.
Qed.

Lemma loadData_success_witness :
  Dashboard.loadData string string header_only_fetch sample_text
    sample_parse_edr sample_parse_two_vulns IsoDate.getTime Dashboard.initialState
  = (Dashboard.Ok tt,
     Dashboard.mkState three_alerts
       [ vuln_resolved "2024-01-01" "2024-01-03" None;
         vuln_resolved "2024-02-27" "2024-03-02" (Some (Num 3)) ]
       (Edr.calculateEdrKpis three_alerts)
       (Vuln.calculateVulnKpis IsoDate.getTime
          [ vuln_resolved "2024-01-01" "2024-01-03" None;
            vuln_resolved "2024-02-27" "2024-03-02" (Some (Num 3)) ])
       false []).
Proof.
  apply (loadData_success header_only_fetch sample_text sample_parse_edr
           sample_parse_two_vulns IsoDate.getTime); reflexivity.
Defined.

Section Colours.

Lemma cellFill_is_Some (index : nat) : is_Some (cellFill index).
Proof.
  unfold cellFill. apply lookup_lt_is_Some_2.
  apply Nat.mod_upper_bound. done.
Qed.

End Colours.

(** The palette index [index % COLORS.length] is always in range, so a
    cell coloured from the palette always gets a colour, and the palette
    repeats every 8 cells. A slice of the vulnerability severity pie
    named by one of the seven keys of [SEVERITY_COLORS] gets that
    severity's colour whatever its position; a slice named [__proto__] or
    by a function inherited from [Object.prototype] gets that inherited
    member, which is no colour; any other slice gets the palette colour of
    its position. *)
Theorem cell_fills_defined :
  (∀ index, is_Some (cellFill index))
  ∧ (∀ index, cellFill (index + 8) = cellFill index)
  ∧ (∀ entry index c,
       color_own SEVERITY_COLORS (name entry) = Some c →
       vulnCellFill entry index = FillColour c)
  ∧ (∀ entry index,
       name entry = "__proto__" ∨ name entry ∈ Object_prototype_functions →
       vulnCellFill entry index = FillInherited (name entry))
  ∧ (∀ entry index,
       color_own SEVERITY_COLORS (name entry) = None →
       name entry ≠ "__proto__" → name entry ∉ Object_prototype_functions →
       ∃ c, cellFill index = Some c ∧ vulnCellFill entry index = FillColour c)
  ∧ (∀ series, length (cellFills series) = length series
               ∧ length (vulnCellFills series) = length series
               ∧ Forall is_Some (cellFills series)).
Proof.
  split_and!.
  - apply cellFill_is_Some.
  - intros index. unfold cellFill. change (length COLORS) with 8%nat.
    by rewrite <- (Nat.Div0.mod_add index 1 8), Nat.mul_1_l.
  - intros entry index c Hc. unfold vulnCellFill, severity_color. rewrite Hc.
    revert Hc. unfold SEVERITY_COLORS. cbn [color_own].
    repeat (destruct (String.eqb _ (name entry)); [by intros [= <-]|]). done.
  - intros entry index Hname. unfold vulnCellFill, severity_color.
    destruct Hname as [->|Hfn]; [done|].
    repeat (apply elem_of_cons in Hfn as [->|Hfn]; [done|]).
    by apply elem_of_nil in Hfn.
  - intros entry index Hown Hp Hfn. unfold vulnCellFill, severity_color. rewrite Hown.
    rewrite (proj2 (String.eqb_neq _ _) Hp).
    destruct (existsb (String.eqb (name entry)) Object_prototype_functions) eqn:E.
    { apply existsb_functions_iff in E. done. }
    cbn [orb]. unfold palette_fill. destruct (cellFill_is_Some index) as [c ->]. by exists c.
  - intros series. unfold cellFills, vulnCellFills. rewrite !length_imap.
    split_and!; try done.
    apply Forall_forall. intros c Hc.
    apply elem_of_lookup_imap_1 in Hc as (i & y & -> & _). apply cellFill_is_Some.
Qed.

Lemma cell_fills_defined_witness :
  vulnCellFill (mkEntry "Critique" (Num 3) (Num 100)) 5 = FillColour "#d9534f"
  ∧ vulnCellFill (mkEntry "toString" (JMemberText "toString" 1) NaN) 5
    = FillInherited "toString"
  ∧ ∃ c, cellFill 9 = Some c
         ∧ vulnCellFill (mkEntry "Info" (Num 3) (Num 100)) 9 = FillColour c.
Proof.
  destruct cell_fills_defined as (_ & _ & Hown & Hinh & Hpal & _). split_and!.
  - apply Hown. reflexivity.
  - apply Hinh. right. apply (bool_decide_unpack _). vm_compute. exact I.
  - apply Hpal; [reflexivity|discriminate|].
    apply (bool_decide_unpack _). vm_compute. exact I.
Defined.

(** The alert-type bar chart shows [alertTypeData.slice(0, 6)]: six bars,
    or as many as there are distinct alert types other than [__proto__]
    if fewer; they are the first six names of the series, array indices
    first in ascending order, so the first six alert types in the order
    the records first show them when no alert type is an array index; and
    each bar is an entry of the series. *)
Theorem alertTypeBars_first_six (data : list Edr.EdrDataType) :
  let bars := alertTypeBars (Edr.calculateEdrKpis data) in
  let distinct := Set_spread (kept_labels Edr.AlertType data) in
  series_of Edr.AlertType data bars
  ∧ length bars
    = (6 `min` size (list_to_set (kept_labels Edr.AlertType data) : gset string))%nat
  ∧ map name bars = take 6 (app (map snd (index_keys distinct)) (string_keys distinct))
  ∧ ((∀ a, a ∈ data → array_index (Edr.AlertType a) = None) →
     map name bars = take 6 distinct).
Proof.
  intros bars distinct. subst bars distinct.
  unfold alertTypeBars, Edr.calculateEdrKpis.
  cbn [Edr.alertTypeData]. unfold Edr.calculateAlertTypeCounts.
  destruct (names_of_count_by Edr.AlertType data (of_nat (length data)))
    as (_ & Hperm & Horder & _ & Hplain).
  split_and!.
  - intros e He. apply (series_of_count_by Edr.AlertType data).
    exact (subseteq_take _ _ _ He).
  - rewrite length_take, <- length_Set_spread. f_equal.
    rewrite <- (Permutation_length Hperm). by rewrite length_map.
  - by rewrite <- firstn_map, Horder.
  - intros Hidx. by rewrite <- firstn_map, (Hplain Hidx).
Qed.

Lemma alertTypeBars_first_six_witness :
  map name (alertTypeBars (Edr.calculateEdrKpis three_alerts)) = [ "Malware" ]
  ∧ map name (alertTypeBars (Edr.calculateEdrKpis index_alerts)) = [ "1"; "2"; "Low" ].
Proof.
  destruct (alertTypeBars_first_six three_alerts) as (_ & _ & _ & Ht).
  destruct (alertTypeBars_first_six index_alerts) as (_ & _ & Hi & _).
  split; [|exact Hi]. apply Ht.
  intros x Hx. repeat (apply elem_of_cons in Hx as [->|Hx]); try reflexivity.
  by apply elem_of_nil in Hx.
Defined.

(* ===================================================================== *)
(** ** The other rates over the total *)
(* ===================================================================== *)

Lemma hasIoC_iff (alert : Edr.EdrDataType) : Edr.hasIoC alert = true ↔ carriesIoC alert.
Proof.
  unfold Edr.hasIoC, carriesIoC. destruct (Edr.IOCType alert) as [s|]; [|done].
  rewrite !andb_true_iff, !negb_true_iff, !String.eqb_neq. tauto.
Qed.

(** On a non-empty list the IoC detection rate is 100 times the number of
    alerts that carry an indicator of compromise over the number of
    alerts, and the remediation rate is 100 times the number of
    vulnerabilities of status "Resolved", dates or not, over the number of
    vulnerabilities. *)
Theorem total_rates_formula (Date_getTime : string → number)
    (alerts : list Edr.EdrDataType) (vulns : list Vuln.VulnDataType) :
  (alerts ≠ [] →
   Edr.iocDetectionRate (Edr.calculateEdrKpis alerts)
   = percent (length (filter carriesIoC alerts)) (length alerts))
  ∧ (vulns ≠ [] →
     Vuln.remediationRate (Vuln.calculateVulnKpis Date_getTime vulns)
     = percent (length (filter (λ v, Vuln.Status v = "Resolved") vulns)) (length vulns)).
Proof.
  split; intros Hne.
  - assert (length alerts ≠ O) as Hlen by (by destruct alerts).
    unfold Edr.calculateEdrKpis. cbn [Edr.iocDetectionRate].
    rewrite ratio_percent by done. do 2 f_equal.
    apply filter_bool_prop, hasIoC_iff.
  - assert (length vulns ≠ O) as Hlen by (by destruct vulns).
    unfold Vuln.calculateVulnKpis. cbn [Vuln.remediationRate].
    rewrite ratio_percent by done. do 2 f_equal.
    apply filter_bool_prop. intros v. apply String.eqb_eq.
Qed.

Lemma total_rates_formula_witness :
  Edr.iocDetectionRate
    (Edr.calculateEdrKpis
       [ Edr.mkAlert "High" (Some "None") "Malware" "Open" "h1";
         Edr.mkAlert "High" (Some "none") "Malware" "Open" "h2";
         Edr.mkAlert "High" (Some "") "Malware" "Open" "h3";
         Edr.mkAlert "High" None "Malware" "Open" "h4" ]) = Num 25
  ∧ Vuln.remediationRate
      (Vuln.calculateVulnKpis IsoDate.getTime
         [ Vuln.mkVuln "High" "Resolved" "Scanner" None None "Non" "Oui" "a1" None;
           Vuln.mkVuln "High" "resolved" "Scanner" None None "Non" "Oui" "a2" None ])
    = Num 50.
Proof.
  split.
  - rewrite (proj1 (total_rates_formula IsoDate.getTime _ [])); [reflexivity|discriminate].
  - rewrite (proj2 (total_rates_formula IsoDate.getTime [] _)); [reflexivity|discriminate].
Defined.
